(** * process-i91/main.py: the invoice handler, embedded and verified

    A shallow embedding of [src/process-i91/main.py]: the Cloud Function
    [process_invoice], the fetcher and flattener
    [get_document_json_from_gcs] with its helpers [keys_exists] and
    [trim_text], the publisher [create_json], and the alternate
    flattener [extract_document_entities].

    Conventions of the embedding.
    - A Python [str] is a [string] whose characters are the code points
      U+0000..U+00FF; on that range [str.strip], [re]'s [\d] and
      [re.IGNORECASE] are the tables written out below.
    - A Python exception is a value of [exn]; a computation that can raise
      returns [result A].  Code that talks to Document AI or Cloud Storage
      runs in [M], which also records every call made, in order.
    - [print] writes to the log only and is left out, except that the
      expression it prints is still evaluated where that can raise. *)

From Stdlib Require Import ZArith Ascii String List Lia Bool.
From Stdlib Require Import Floats.SpecFloat.
From Stdlib Require DecimalString.
From stdpp Require Import base option list strings gmap.

Local Open Scope Z_scope.

(** ** Python strings *)

Module PyStr.

Definition LF : ascii := ascii_of_nat 10.
Definition SP : ascii := ascii_of_nat 32.

Definition code (c : ascii) : Z := Z.of_nat (nat_of_ascii c).

(** [str.isspace] on one code point below U+0100. *)
Definition is_space (c : ascii) : bool :=
  let n := code c in
  ((9 <=? n) && (n <=? 13)) || ((28 <=? n) && (n <=? 32))
  || (n =? 133) || (n =? 160).

(** [\d] of a [str] pattern, below U+0100: the ten ASCII digits. *)
Definition is_digit (c : ascii) : bool :=
  let n := code c in (48 <=? n) && (n <=? 57).

(** Simple case folding below U+0100 as [re.IGNORECASE] compares an ASCII
    letter of the pattern with a character of the subject. *)
Definition lower (c : ascii) : ascii :=
  let n := code c in
  if (65 <=? n) && (n <=? 90) then ascii_of_nat (Z.to_nat (n + 32)) else c.

Definition eqb_nocase (a b : ascii) : bool := Ascii.eqb (lower a) (lower b).

Fixpoint lstrip (s : string) : string :=
  match s with
  | EmptyString => EmptyString
  | String c s' => if is_space c then lstrip s' else s
  end.

Fixpoint rstrip (s : string) : string :=
  match s with
  | EmptyString => EmptyString
  | String c s' =>
      match rstrip s' with
      | EmptyString => if is_space c then EmptyString else String c EmptyString
      | r => String c r
      end
  end.

(** [s.strip()] *)
Definition strip (s : string) : string := rstrip (lstrip s).

(** [s.replace(old, new)] for a one-character [old]. *)
Fixpoint replace (old : ascii) (new : string) (s : string) : string :=
  match s with
  | EmptyString => EmptyString
  | String c s' =>
      if Ascii.eqb c old then new +:+ replace old new s'
      else String c (replace old new s')
  end.

Fixpoint starts_with (p s : string) : bool :=
  match p, s with
  | EmptyString, _ => true
  | String a p', String b s' => Ascii.eqb a b && starts_with p' s'
  | String _ _, EmptyString => false
  end.

(** [sub in s] *)
Fixpoint contains (sub s : string) : bool :=
  starts_with sub s ||
  match s with
  | EmptyString => false
  | String _ s' => contains sub s'
  end.

(** [bool(s)] *)
Definition truthy (s : string) : bool :=
  match s with EmptyString => false | _ => true end.

Fixpoint join (sep : string) (l : list string) : string :=
  match l with
  | [] => EmptyString
  | [x] => x
  | x :: l' => x +:+ sep +:+ join sep l'
  end.

Fixpoint repeat_char (c : ascii) (n : nat) : string :=
  match n with O => EmptyString | S n' => String c (repeat_char c n') end.

(** [str(z)] for a Python [int]. *)
Definition of_Z (z : Z) : string :=
  DecimalString.NilZero.string_of_int (Z.to_int z).

End PyStr.

(** ** Exceptions and results *)

Inductive exn : Type :=
| AttributeError
| KeyError
| TypeError
| ExternalError (what : string).

Definition result (A : Type) : Type := (exn + A)%type.

Abbreviation Ok := (@inr exn _).
Abbreviation Raise := (@inl exn _).

Definition rbind {A B : Type} (r : result A) (k : A -> result B) : result B :=
  match r with
  | inl e => inl e
  | inr a => k a
  end.

Declare Scope result_scope.
Delimit Scope result_scope with res.
Notation "x <-r r ; k" := (rbind r (fun x => k))
  (at level 100, r at next level, right associativity) : result_scope.
Local Open Scope result_scope.

(** ** Python floats: parsing a decimal literal and [repr]

    A [float] is an IEEE 754 binary64 value, a [spec_float].  [json.loads]
    (like a float literal) rounds a decimal numeral to the nearest binary64,
    ties to even; [repr], which [str] uses, prints the shortest decimal
    numeral that reads back as the same float, the closest to it when there
    are several, laid out by the rules of format code ['r']. *)

Module PyFloat.

Definition half_even (n d : Z) : Z :=
  let q := n / d in
  let r := n mod d in
  if 2 * r <? d then q
  else if d <? 2 * r then q + 1
  else if Z.even q then q else q + 1.

(** The binary64 nearest to [n / d], for [0 <= n] and [0 < d]. *)
Definition of_ratio (s : bool) (n d : Z) : spec_float :=
  if n =? 0 then S754_zero s
  else
    let e0 := Z.log2 n - Z.log2 d in
    let ge := if 0 <=? e0 then d * 2 ^ e0 <=? n else d <=? n * 2 ^ (- e0) in
    let lg := if ge then e0 else e0 - 1 in
    let e := Z.max (lg - 52) (-1074) in
    let m := if 0 <=? e then half_even n (d * 2 ^ e)
             else half_even (n * 2 ^ (- e)) d in
    let '(m, e) := if m =? 2 ^ 53 then (2 ^ 52, e + 1) else (m, e) in
    if m =? 0 then S754_zero s
    else if 971 <? e then S754_infinity s
    else S754_finite s (Z.to_pos m) e.

(** The float a decimal numeral [digits * 10 ^ exp10] denotes, with sign
    [s]: what [json.loads] gives for a number with a fraction or exponent. *)
Definition of_decimal (s : bool) (digits exp10 : Z) : spec_float :=
  if 0 <=? exp10 then of_ratio s (digits * 10 ^ exp10) 1
  else of_ratio s digits (10 ^ (- exp10)).

(** [m * 2 ^ e] in canonical form. *)
Definition canonical (m : positive) (e : Z) : spec_float :=
  if 0 <=? e then of_ratio false (Z.pos m * 2 ^ e) 1
  else of_ratio false (Z.pos m) (2 ^ (- e)).

(** Number of decimal digits of [n > 0]. *)
Fixpoint ndigits_fuel (fuel : nat) (n : Z) : Z :=
  match fuel with
  | O => 0
  | S fuel' => if n <? 10 then 1 else 1 + ndigits_fuel fuel' (n / 10)
  end.

Definition ndigits (n : Z) : Z := ndigits_fuel (Z.to_nat (Z.log2 n) + 1) n.

(** [floor (log10 (n / d))] for [0 < n], [0 < d]. *)
Fixpoint neg_log10 (fuel : nat) (n d : Z) (k : Z) : Z :=
  match fuel with
  | O => k
  | S fuel' => if d <=? n then k else neg_log10 fuel' (n * 10) d (k - 1)
  end.

Definition floor_log10 (n d : Z) : Z :=
  if d <=? n then ndigits (n / d) - 1 else neg_log10 400 n d 0.

Fixpoint strip_zeros (fuel : nat) (c : Z) : Z :=
  match fuel with
  | O => c
  | S fuel' => if c mod 10 =? 0 then strip_zeros fuel' (c / 10) else c
  end.

(** The candidates with [p] significant digits around [xn / xd]: the
    result is the one that reads back as [x], nearest first. *)
Definition try_digits (x : spec_float) (xn xd k10 p : Z) : option (Z * Z) :=
  let s := p - 1 - k10 in
  let '(Xn, Xd) := if 0 <=? s then (xn * 10 ^ s, xd) else (xn, xd * 10 ^ (- s)) in
  let lo := Xn / Xd in
  let hi := lo + 1 in
  let reads c := match of_decimal false c (- s), x with
                 | S754_finite _ m1 e1, S754_finite _ m2 e2 =>
                     (Z.pos m1 =? Z.pos m2) && (e1 =? e2)
                 | _, _ => false
                 end in
  let lo_first := (2 * Xn <? (lo + hi) * Xd)
                  || ((2 * Xn =? (lo + hi) * Xd) && Z.even lo) in
  let pick c := Some (strip_zeros 20 c, ndigits c - s) in
  let '(c1, c2) := if lo_first then (lo, hi) else (hi, lo) in
  if reads c1 then pick c1 else if reads c2 then pick c2 else None.

Fixpoint shortest_from (fuel : nat) (x : spec_float) (xn xd k10 p : Z)
  : Z * Z :=
  match fuel with
  | O => (0, 0)
  | S fuel' =>
      match try_digits x xn xd k10 p with
      | Some r => r
      | None => shortest_from fuel' x xn xd k10 (p + 1)
      end
  end.

(** The digits [c] and the position [decpt] of the decimal point, the
    value printed being [0.c * 10 ^ decpt]. *)
Definition shortest (m : positive) (e : Z) : Z * Z :=
  let '(xn, xd) := if 0 <=? e then (Z.pos m * 2 ^ e, 1)
                   else (Z.pos m, 2 ^ (- e)) in
  shortest_from 17 (canonical m e) xn xd (floor_log10 xn xd) 1.

Definition sub (s : string) (from : Z) : string :=
  String.substring (Z.to_nat from) (String.length s - Z.to_nat from) s.

Definition pre (s : string) (n : Z) : string :=
  String.substring 0 (Z.to_nat n) s.

(** The layout of format code ['r'] with a trailing [.0] where needed. *)
Definition layout (c decpt : Z) : string :=
  let ds := PyStr.of_Z c in
  let n := Z.of_nat (String.length ds) in
  if (decpt <=? -4) || (16 <? decpt) then
    let ex := decpt - 1 in
    let mant := if n =? 1 then ds else pre ds 1 +:+ "." +:+ sub ds 1 in
    let ea := PyStr.of_Z (Z.abs ex) in
    let ea := if Z.abs ex <? 10 then "0" +:+ ea else ea in
    mant +:+ "e" +:+ (if ex <? 0 then "-" else "+") +:+ ea
  else if decpt <=? 0 then
    "0." +:+ PyStr.repeat_char "0" (Z.to_nat (- decpt)) +:+ ds
  else if n <=? decpt then
    ds +:+ PyStr.repeat_char "0" (Z.to_nat (decpt - n)) +:+ ".0"
  else pre ds decpt +:+ "." +:+ sub ds decpt.

(** [repr(x)], which is also [str(x)]. *)
Definition repr (x : spec_float) : string :=
  match x with
  | S754_nan => "nan"
  | S754_infinity s => if s then "-inf" else "inf"
  | S754_zero s => if s then "-0.0" else "0.0"
  | S754_finite s m e =>
      let '(c, decpt) := shortest m e in
      (if s then "-" else "") +:+ layout c decpt
  end.

End PyFloat.

(** ** JSON values as [json.loads] returns them *)

(** [None], [bool], [int], [float], [str], [list] and [dict] with [str]
    keys.  A [float] is a binary64 value in canonical form, as
    [PyFloat.of_decimal] builds it.  A [dict] is kept as its items in
    insertion order; a key is looked up from the front. *)
#[warnings="-register-all"]
Inductive json : Type :=
| JNull
| JBool (b : bool)
| JInt (z : Z)
| JFloat (x : spec_float)
| JStr (s : string)
| JList (l : list json)
| JObj (items : list (string * json)).

Module Json.

Definition is_dict (v : json) : bool :=
  match v with JObj _ => true | _ => false end.

Fixpoint lookup (key : string) (items : list (string * json)) : option json :=
  match items with
  | [] => None
  | (k, v) :: rest => if String.eqb k key then Some v else lookup key rest
  end.

(** [v[key]] for a [str] key: a [dict] looks the key up and raises
    [KeyError] when it is absent; a [list] or a [str] refuses a [str]
    index and the other values are not subscriptable, all with
    [TypeError]. *)
Definition getitem (v : json) (key : string) : result json :=
  match v with
  | JObj items =>
      match lookup key items with
      | Some x => Ok x
      | None => Raise KeyError
      end
  | _ => Raise TypeError
  end.

Fixpoint chars (s : string) : list json :=
  match s with
  | EmptyString => []
  | String c s' => JStr (String c EmptyString) :: chars s'
  end.

(** The elements a [for] loop over [v] visits: the elements of a [list],
    the keys of a [dict], the characters of a [str]; the other values are
    not iterable. *)
Definition iter (v : json) : result (list json) :=
  match v with
  | JList l => Ok l
  | JObj items => Ok (map (fun kv => JStr (fst kv)) items)
  | JStr s => Ok (chars s)
  | _ => Raise TypeError
  end.

Definition hex_digit (n : Z) : ascii :=
  if n <? 10 then ascii_of_nat (Z.to_nat (48 + n))
  else ascii_of_nat (Z.to_nat (87 + n)).

Definition hex2 (c : ascii) : string :=
  let n := PyStr.code c in
  String (hex_digit (n / 16)) (String (hex_digit (n mod 16)) EmptyString).

(** [str.isprintable] on one code point below U+0100. *)
Definition is_printable (c : ascii) : bool :=
  let n := PyStr.code c in
  ((32 <=? n) && (n <=? 126)) || ((161 <=? n) && negb (n =? 173)).

Definition repr_char (quote : ascii) (c : ascii) : string :=
  let n := PyStr.code c in
  if Ascii.eqb c quote || (n =? 92) then String "\" (String c EmptyString)
  else if n =? 9 then "\t"
  else if n =? 10 then "\n"
  else if n =? 13 then "\r"
  else if is_printable c then String c EmptyString
  else "\x" +:+ hex2 c.

Fixpoint repr_chars (quote : ascii) (s : string) : string :=
  match s with
  | EmptyString => EmptyString
  | String c s' => repr_char quote c +:+ repr_chars quote s'
  end.

(** [repr(s)] of a [str]: double quotes only when the text has a single
    quote and no double quote. *)
Definition repr_str (s : string) : string :=
  let single := String "'" EmptyString in
  let double := String (ascii_of_nat 34) EmptyString in
  let quote := if PyStr.contains single s && negb (PyStr.contains double s)
               then ascii_of_nat 34 else "'"%char in
  String quote (repr_chars quote s) +:+ String quote EmptyString.

Fixpoint repr (v : json) : string :=
  match v with
  | JNull => "None"
  | JBool b => if b then "True" else "False"
  | JInt z => PyStr.of_Z z
  | JFloat x => PyFloat.repr x
  | JStr s => repr_str s
  | JList l => "[" +:+ PyStr.join ", " (map repr l) +:+ "]"
  | JObj items =>
      "{" +:+ PyStr.join ", "
                (map (fun kv => repr_str (fst kv) +:+ ": " +:+ repr (snd kv))
                     items) +:+ "}"
  end.

(** [str(v)] *)
Definition str (v : json) : string :=
  match v with
  | JStr s => s
  | _ => repr v
  end.

(** One character of a string in [json.dumps] output (the default
    [ensure_ascii=True]). *)
Definition dumps_char (c : ascii) : string :=
  let n := PyStr.code c in
  if n =? 34 then String "\" (String c EmptyString)
  else if n =? 92 then "\\"
  else if n =? 10 then "\n"
  else if n =? 13 then "\r"
  else if n =? 9 then "\t"
  else if n =? 12 then "\f"
  else if n =? 8 then "\b"
  else if (32 <=? n) && (n <=? 126) then String c EmptyString
  else "\u00" +:+ hex2 c.

Fixpoint dumps_chars (s : string) : string :=
  match s with
  | EmptyString => EmptyString
  | String c s' => dumps_char c +:+ dumps_chars s'
  end.

Definition dumps_str (s : string) : string :=
  let dq := String (ascii_of_nat 34) EmptyString in
  dq +:+ dumps_chars s +:+ dq.

End Json.

(** ** The flattener's helpers *)

(** [trim_text(text)] for a [str]: [text.strip().replace("\n", " ")]. *)
Definition trim_text (text : string) : string :=
  PyStr.replace PyStr.LF (String PyStr.SP EmptyString) (PyStr.strip text).

(** [trim_text(v)] for a value out of a parsed document: only a [str] has
    [strip]; any other value raises [AttributeError]. *)
Definition trim_text_value (v : json) : result string :=
  match v with
  | JStr s => Ok (trim_text s)
  | _ => Raise AttributeError
  end.

(** The loop of [keys_exists]: [_element = _element[key]] for each key, a
    [KeyError] ending it with [False]; any other exception propagates. *)
Fixpoint keys_exists_loop (_element : json) (keys : list string) : result bool :=
  match keys with
  | [] => Ok true
  | key :: keys' =>
      match Json.getitem _element key with
      | inr v => keys_exists_loop v keys'
      | inl KeyError => Ok false
      | inl e => Raise e
      end
  end.

(** [keys_exists(element, *keys)] *)
Definition keys_exists (element : json) (keys : list string) : result bool :=
  if negb (Json.is_dict element) then Raise AttributeError
  else
    match keys with
    | [] => Raise AttributeError
    | _ => keys_exists_loop element keys
    end.

(** [a and b] on two checks that can raise: [b] runs only when [a] is
    true. *)
Definition and_then (a b : result bool) : result bool :=
  x <-r a; if x then b else Ok false.

(** [x[k1][k2]...]: the nested subscripts of an accepted entry. *)
Fixpoint getpath (v : json) (keys : list string) : result json :=
  match keys with
  | [] => Ok v
  | key :: keys' => x <-r Json.getitem v key; getpath x keys'
  end.

(** A [fieldItem]: the dict with the four keys, in this order. *)
Record FieldRecord : Type := mkFieldRecord {
  fieldName : string;
  fieldNameConfidence : string;
  fieldValue : string;
  fieldValueConfidence : string
}.

Definition name_content : list string := ["fieldName"; "textAnchor"; "content"].
Definition name_confidence : list string := ["fieldName"; "confidence"].
Definition value_content : list string := ["fieldValue"; "textAnchor"; "content"].
Definition value_confidence : list string := ["fieldValue"; "confidence"].

(** The condition of line 205. *)
Definition field_complete (field : json) : result bool :=
  and_then (keys_exists field name_content)
    (and_then (keys_exists field name_confidence)
       (and_then (keys_exists field value_content)
          (keys_exists field value_confidence))).

(** Lines 206 to 210. *)
Definition field_item (field : json) : result FieldRecord :=
  c1 <-r getpath field name_content;
  fieldName <-r trim_text_value c1;
  c2 <-r getpath field name_confidence;
  fieldNameConfidence <-r Ok (trim_text (Json.str c2));
  c3 <-r getpath field value_content;
  fieldValue <-r trim_text_value c3;
  c4 <-r getpath field value_confidence;
  fieldValueConfidence <-r Ok (trim_text (Json.str c4));
  Ok (mkFieldRecord fieldName fieldNameConfidence fieldValue fieldValueConfidence).

(** [for field in page["formFields"]: ...], with the list [json_objects]
    the loop appends to. *)
Fixpoint loop_fields (fields : list json) (json_objects : list FieldRecord)
  : result (list FieldRecord) :=
  match fields with
  | [] => Ok json_objects
  | field :: fields' =>
      ok <-r field_complete field;
      if ok then
        fieldItem <-r field_item field;
        loop_fields fields' (json_objects ++ [fieldItem])
      else loop_fields fields' json_objects
  end.

(** [for page in json_data["pages"]: ...] *)
Fixpoint loop_pages (pages : list json) (json_objects : list FieldRecord)
  : result (list FieldRecord) :=
  match pages with
  | [] => Ok json_objects
  | page :: pages' =>
      has <-r keys_exists page ["formFields"];
      if has then
        ff <-r Json.getitem page "formFields";
        fields <-r Json.iter ff;
        objs <-r loop_fields fields json_objects;
        loop_pages pages' objs
      else loop_pages pages' json_objects
  end.

(** Lines 198 to 212 for one parsed document. *)
Definition flatten_document (json_data : json) (json_objects : list FieldRecord)
  : result (list FieldRecord) :=
  pages_value <-r Json.getitem json_data "pages";
  pages <-r Json.iter pages_value;
  loop_pages pages json_objects.

(** ** The services the handler calls *)

(** A call made to Document AI or to Cloud Storage, with its arguments. *)
Inductive call : Type :=
| BatchProcessDocuments (processor_name gcs_uri_prefix gcs_uri : string)
| OperationResult (operation_name : string) (timeout : Z)
| ListBlobs (bucket prefix : string)
| DownloadAsString (blob_name : string)
| UploadFromString (bucket filename data content_type : string).

Definition is_upload (c : call) : bool :=
  match c with UploadFromString _ _ _ _ => true | _ => false end.

(** The long-running operation: [operation.operation.name], and what
    [operation.result(timeout=...)] does (it returns, or raises). *)
Record Operation : Type := mkOperation {
  operation_name : string;
  operation_result : Z -> result unit
}.

(** A listed object: [blob.name], and what [blob.download_as_string()]
    does. *)
Record Blob : Type := mkBlob {
  blob_name : string;
  download_as_string : result string
}.

(** The environment of one invocation: the five configuration values read
    at start ([os.environ.get] gives [None] for an unset variable), the
    answers of the two services, and [json.loads]. *)
Record Env : Type := mkEnv {
  gcs_output_uri_prefix : option string;
  project_id : option string;
  location : option string;
  processor_id : option string;
  timeout : Z;
  batch_process_documents : string -> string -> string -> result Operation;
  list_blobs : string -> string -> result (list Blob);
  upload_from_string : string -> string -> string -> string -> result unit;
  json_loads : string -> result json
}.

(** A computation that calls the services: it extends the list of calls
    made so far and returns or raises. *)
Definition M (A : Type) : Type := list call -> list call * result A.

Definition ret {A : Type} (a : A) : M A := fun tr => (tr, Ok a).

Definition bind {A B : Type} (m : M A) (k : A -> M B) : M B :=
  fun tr =>
    match m tr with
    | (tr', inl e) => (tr', inl e)
    | (tr', inr a) => k a tr'
    end.

(** A pure computation that can raise. *)
Definition lift {A : Type} (r : result A) : M A := fun tr => (tr, r).

(** One service call: the call is recorded, then its answer is returned
    or raised. *)
Definition service {A : Type} (c : call) (answer : result A) : M A :=
  fun tr => (tr ++ [c], answer).

Declare Scope m_scope.
Delimit Scope m_scope with M.
Notation "x <- m ;; k" := (bind m (fun x => k))
  (at level 100, m at next level, right associativity) : m_scope.

(** The calls made by a whole run, and how it ended. *)
Definition run {A : Type} (m : M A) : list call * result A := m [].

(** An [Optional[str]] inside an f-string. *)
Definition fmt (o : option string) : string := default "None" o.

(** ** The fetcher and flattener *)

(** The body of [for blob in blob_list] of [get_document_json_from_gcs]. *)
Definition blob_step (w : Env) (blob : Blob) (json_objects : list FieldRecord)
  : M (list FieldRecord) :=
  (if PyStr.contains ".json" (blob_name blob) then
     json_data_string <- service (DownloadAsString (blob_name blob))
                           (download_as_string blob);;
     json_data <- lift (json_loads w json_data_string);;
     lift (flatten_document json_data json_objects)
   else ret json_objects)%M.

Fixpoint loop_blobs (w : Env) (blob_list : list Blob)
  (json_objects : list FieldRecord) : M (list FieldRecord) :=
  match blob_list with
  | [] => ret json_objects
  | blob :: rest =>
      (objs <- blob_step w blob json_objects;; loop_blobs w rest objs)%M
  end.

(** [get_document_json_from_gcs(output_bucket, output_directory)] *)
Definition get_document_json_from_gcs (w : Env)
  (output_bucket output_directory : string) : M (list FieldRecord) :=
  (blob_list <- service (ListBlobs output_bucket output_directory)
                  (list_blobs w output_bucket output_directory);;
   loop_blobs w blob_list [])%M.

(** ** The publisher *)

Definition dumps_record (r : FieldRecord) : string :=
  "{" +:+ Json.dumps_str "fieldName" +:+ ": " +:+ Json.dumps_str (fieldName r)
  +:+ ", " +:+ Json.dumps_str "fieldNameConfidence" +:+ ": "
  +:+ Json.dumps_str (fieldNameConfidence r)
  +:+ ", " +:+ Json.dumps_str "fieldValue" +:+ ": "
  +:+ Json.dumps_str (fieldValue r)
  +:+ ", " +:+ Json.dumps_str "fieldValueConfidence" +:+ ": "
  +:+ Json.dumps_str (fieldValueConfidence r) +:+ "}".

(** [json.dumps(json_object)] for the list of field items. *)
Definition json_dumps (json_object : list FieldRecord) : string :=
  "[" +:+ PyStr.join ", " (map dumps_record json_object) +:+ "]".

(** [create_json(json_object, bucketname, filename)]; the value returned
    is the text under the key ['response']. *)
Definition create_json (w : Env) (json_object : list FieldRecord)
  (bucketname filename : string) : M string :=
  (_ <- service (UploadFromString bucketname filename (json_dumps json_object)
                   "application/json")
          (upload_from_string w bucketname filename (json_dumps json_object)
             "application/json");;
   ret (filename +:+ " upload complete"))%M.

(** ** The operation identifier *)

Module Re.

(** The literal part of the pattern, [operations\/]. *)
Definition literal : string := "operations/".

(** The literal matched at the start of [s], ignoring case: what is left
    of [s] after it. *)
Fixpoint match_literal (lit s : string) : option string :=
  match lit, s with
  | EmptyString, _ => Some s
  | String a lit', String b s' =>
      if PyStr.eqb_nocase a b then match_literal lit' s' else None
  | String _ _, EmptyString => None
  end.

(** The longest run of digits at the start of [s]: the greedy [\d+]. *)
Fixpoint take_digits (s : string) : string :=
  match s with
  | String c s' => if PyStr.is_digit c then String c (take_digits s') else EmptyString
  | EmptyString => EmptyString
  end.

(** The pattern matched at the start of [s]: group 1. *)
Definition match_here (s : string) : option string :=
  match match_literal literal s with
  | Some rest =>
      match take_digits rest with
      | EmptyString => None
      | ds => Some ds
      end
  | None => None
  end.

(** [re.search(r"operations\/(\d+)", s, re.IGNORECASE)]: the leftmost
    match; [None] when there is none, else its group 1. *)
Fixpoint search (s : string) : option string :=
  match match_here s with
  | Some ds => Some ds
  | None =>
      match s with
      | EmptyString => None
      | String _ s' => search s'
      end
  end.

End Re.

(** ** The handler *)

(** The storage notification: [event.get("bucket")], [event.get("name")]
    and [event.get("contentType")], [None] for an absent key. *)
Record TriggerEvent : Type := mkEvent {
  bucket : option string;
  name : option string;
  contentType : option string
}.

Definition ACCEPTED_MIME_TYPES : gset string :=
  {[ "application/pdf"; "image/jpeg"; "image/png"; "image/tiff"; "image/gif" ]}.

(** [mime_type not in ACCEPTED_MIME_TYPES]; [None] is no member. *)
Definition not_accepted (mime_type : option string) : bool :=
  match mime_type with
  | Some m => bool_decide (m ∉ ACCEPTED_MIME_TYPES)
  | None => true
  end.

(** ['...' + x] for an [Optional[str]]: [str + None] raises [TypeError]. *)
Definition concat_opt (s : string) (x : option string) : result string :=
  match x with
  | Some t => Ok (s +:+ t)
  | None => Raise TypeError
  end.

(** [docai_client.processor_path(project, location, processor)] *)
Definition processor_path (project loc processor : option string) : string :=
  "projects/" +:+ fmt project +:+ "/locations/" +:+ fmt loc
  +:+ "/processors/" +:+ fmt processor.

(** [_batch_process_documents(...)]: the request names the processor, the
    input prefix and the output directory. *)
Definition _batch_process_documents (w : Env)
  (project loc processor : option string) (gcs_input_uri gcs_output_uri : string)
  : M Operation :=
  let resource_name := processor_path project loc processor in
  service (BatchProcessDocuments resource_name gcs_input_uri gcs_output_uri)
    (batch_process_documents w resource_name gcs_input_uri gcs_output_uri).

(** [process_invoice(event, context)]; it returns [None]. *)
Definition process_invoice (w : Env) (event : TriggerEvent) : M unit :=
  match bucket event, name event with
  | Some input_bucket, Some input_filename =>
      if negb (PyStr.truthy input_bucket) || negb (PyStr.truthy input_filename)
      then ret tt
      else
        let mime_type := contentType event in
        if not_accepted mime_type then
          (_ <- lift (concat_opt "Cannot parse the file type: " mime_type);;
           ret tt)%M
        else
          (_ <- lift (concat_opt "Mime Type: " mime_type);;
           let gcs_input_uri := "gs://" +:+ input_bucket +:+ "/" +:+ input_filename in
           let destination_uri :=
             "gs://" +:+ input_bucket +:+ "/" +:+ fmt (gcs_output_uri_prefix w)
             +:+ "/" in
           operation <- _batch_process_documents w (project_id w) (location w)
                          (processor_id w) gcs_input_uri destination_uri;;
           _ <- service (OperationResult (operation_name operation) (timeout w))
                  (operation_result operation (timeout w));;
           operation_id <- lift (match Re.search (operation_name operation) with
                                 | Some g => Ok g
                                 | None => Raise AttributeError
                                 end);;
           let output_directory :=
             fmt (gcs_output_uri_prefix w) +:+ "/" +:+ operation_id in
           entities <- get_document_json_from_gcs w input_bucket output_directory;;
           let extract_filename := "extractedjson/" +:+ input_filename +:+ ".json" in
           _ <- create_json w entities input_bucket extract_filename;;
           ret tt)%M
  | _, _ => ret tt
  end.

(** ** The alternate flattener *)

(** [entity.normalized_value]: its [text], and whether one of its other
    fields counts for the truth value of the message.  The message is
    true when its [text] is non-empty or one of the other fields counts. *)
Record NormalizedValue : Type := mkNormalizedValue {
  text : string;
  structured_value : bool
}.

Definition normalized_truthy (nv : NormalizedValue) : bool :=
  PyStr.truthy (text nv) || structured_value nv.

(** A [Document.Entity]; its [properties] are entities again. *)
#[warnings="-register-all"]
Inductive Entity : Type :=
| mkEntity (type_ : string) (mention_text : string)
    (normalized_value : NormalizedValue) (properties : list Entity).

Definition type_ (e : Entity) : string :=
  match e with mkEntity t _ _ _ => t end.
Definition mention_text (e : Entity) : string :=
  match e with mkEntity _ m _ _ => m end.
Definition normalized_value (e : Entity) : NormalizedValue :=
  match e with mkEntity _ _ nv _ => nv end.
Definition properties (e : Entity) : list Entity :=
  match e with mkEntity _ _ _ ps => ps end.

(** A value of the dictionary [document_entities]: a [str] or a [list] of
    [str]. *)
Inductive EntityValue : Type :=
| Scalar (s : string)
| Many (l : list string).

(** [bool(v)] *)
Definition value_truthy (v : EntityValue) : bool :=
  match v with
  | Scalar s => PyStr.truthy s
  | Many l => match l with [] => false | _ => true end
  end.

(** [entity.type_.replace('/', '_')] *)
Definition entity_key (entity : Entity) : string :=
  PyStr.replace "/" "_" (type_ entity).

(** [normalized_value.text if normalized_value else entity.mention_text] *)
Definition new_entity_value (entity : Entity) : string :=
  if normalized_truthy (normalized_value entity)
  then text (normalized_value entity)
  else mention_text entity.

(** [list([existing_entity])] unless it is a list already. *)
Definition as_list (existing_entity : EntityValue) : list string :=
  match existing_entity with
  | Many l => l
  | Scalar s => [s]
  end.

(** [extract_document_entity(entity)], on the dictionary it updates: the
    test [if existing_entity:] is the truth value of what [get] found. *)
Definition extract_document_entity (entity : Entity)
  (document_entities : gmap string EntityValue) : gmap string EntityValue :=
  match document_entities !! entity_key entity with
  | Some existing_entity =>
      if value_truthy existing_entity then
        <[entity_key entity :=
            Many (as_list existing_entity ++ [new_entity_value entity])]>
          document_entities
      else <[entity_key entity := Scalar (new_entity_value entity)]> document_entities
  | None => <[entity_key entity := Scalar (new_entity_value entity)]> document_entities
  end.

(** [for prop in entity.properties: extract_document_entity(prop)] *)
Definition loop_properties (props : list Entity)
  (document_entities : gmap string EntityValue) : gmap string EntityValue :=
  fold_left (fun d prop => extract_document_entity prop d) props document_entities.

(** [extract_document_entities(document)], on [document.entities]. *)
Definition extract_document_entities (entities : list Entity)
  : gmap string EntityValue :=
  fold_left
    (fun d entity =>
       loop_properties (properties entity) (extract_document_entity entity d))
    entities ∅.

(** ** Shapes of the input used in the statements *)

Fixpoint all_chars (p : ascii -> bool) (s : string) : bool :=
  match s with
  | EmptyString => true
  | String c s' => p c && all_chars p s'
  end.

Fixpoint last_char (s : string) : option ascii :=
  match s with
  | EmptyString => None
  | String c EmptyString => Some c
  | String _ s' => last_char s'
  end.

(** Two strings are equal up to the case of their letters. *)
Fixpoint same_nocase (a b : string) : bool :=
  match a, b with
  | EmptyString, EmptyString => true
  | String x a', String y b' => PyStr.eqb_nocase x y && same_nocase a' b'
  | _, _ => false
  end.

Definition first_char (s : string) : option ascii :=
  match s with
  | EmptyString => None
  | String c _ => Some c
  end.

(** No two newline characters are adjacent in [s]. *)
Fixpoint no_double_newline (s : string) : bool :=
  match s with
  | EmptyString => true
  | String c s' =>
      match s' with
      | String c' _ =>
          negb (Ascii.eqb c PyStr.LF && Ascii.eqb c' PyStr.LF)
          && no_double_newline s'
      | EmptyString => true
      end
  end.

(** Along the path [keys] from [v], every value that gets subscripted is
    a dictionary (the path may stop short at a missing key). *)
Fixpoint dicts_along (v : json) (keys : list string) : bool :=
  match keys with
  | [] => true
  | key :: keys' =>
      match v with
      | JObj items =>
          match Json.lookup key items with
          | Some x => dicts_along x keys'
          | None => true
          end
      | _ => false
      end
  end.

(** An entry has the shape of the document schema as far as the checks
    subscript it: the entry is an object, and so are its ["fieldName"] and
    ["fieldValue"] and their ["textAnchor"], each when present. *)
Definition entry_shaped (field : json) : bool :=
  dicts_along field name_content && dicts_along field value_content.

(** A parsed document has a top-level ["pages"] key. *)
Definition has_pages (v : json) : bool :=
  match v with
  | JObj items => match Json.lookup "pages" items with Some _ => true | None => false end
  | _ => false
  end.

(** Where an upload goes: its bucket and object name. *)
Definition upload_destination (c : call) : option (string * string) :=
  match c with
  | UploadFromString b f _ _ => Some (b, f)
  | _ => None
  end.

(** The uploads among the calls made. *)
Definition uploads (tr : list call) : list call := List.filter is_upload tr.

(** ** What the specification says, for comparison with the code *)

Module Spec.

(** Newline runs collapsed: every maximal run of newline characters
    becomes one space. *)
Fixpoint collapse_newlines (s : string) : string :=
  match s with
  | EmptyString => EmptyString
  | String c s' =>
      if Ascii.eqb c PyStr.LF then
        match s' with
        | String c' _ =>
            if Ascii.eqb c' PyStr.LF then collapse_newlines s'
            else String PyStr.SP (collapse_newlines s')
        | EmptyString => String PyStr.SP EmptyString
        end
      else String c (collapse_newlines s')
  end.

(** Normalization as specified: trim, then collapse the newlines. *)
Definition normalize (s : string) : string :=
  collapse_newlines (PyStr.strip s).

(** The nested key path [keys] is present in [v]. *)
Fixpoint has_path (v : json) (keys : list string) : bool :=
  match keys with
  | [] => true
  | key :: keys' =>
      match v with
      | JObj items =>
          match Json.lookup key items with
          | Some x => has_path x keys'
          | None => false
          end
      | _ => false
      end
  end.

(** The four required paths of a form-field entry are all present. *)
Definition all_four (field : json) : bool :=
  has_path field name_content && has_path field name_confidence
  && has_path field value_content && has_path field value_confidence.


(** The pattern matches at the start of [t] with the digit group [ds]:
    [\d+] is greedy, so no digit follows the group. *)
Definition matches_at (t ds : string) : Prop :=
  ∃ lit after,
    t = lit +:+ ds +:+ after
    ∧ same_nocase lit Re.literal = true
    ∧ ds ≠ EmptyString
    ∧ all_chars PyStr.is_digit ds = true
    ∧ ∀ c, first_char after = Some c → PyStr.is_digit c = false.

(** [ds] is the digit group of the leftmost match in [s]. *)
Definition first_match (s ds : string) : Prop :=
  ∃ before t,
    s = before +:+ t
    ∧ matches_at t ds
    ∧ ∀ b1 b2 d, before = b1 +:+ b2 → b2 ≠ EmptyString → ¬ matches_at (b2 +:+ t) d.

End Spec.

(** ** The proto fetcher *)

(** A [documentai.Document] as far as the handler reads it: its
    [entities], which [extract_document_entities] flattens. *)
Record Document : Type := mkDocument {
  entities : list Entity
}.

(** The body of [for blob in blob_list] of [get_document_protos_from_gcs];
    [from_json] is [documentai.types.Document.from_json], and the download
    is [blob.download_as_bytes()], of which [download_as_string] is the
    older name. *)
Definition proto_step (from_json : string -> result Document) (blob : Blob)
  (document_protos : list Document) : M (list Document) :=
  (if PyStr.contains ".json" (blob_name blob) then
     data <- service (DownloadAsString (blob_name blob)) (download_as_string blob);;
     document_proto <- lift (from_json data);;
     ret (document_protos ++ [document_proto])
   else ret document_protos)%M.

Fixpoint loop_protos (from_json : string -> result Document)
  (blob_list : list Blob) (document_protos : list Document) : M (list Document) :=
  match blob_list with
  | [] => ret document_protos
  | blob :: rest =>
      (protos <- proto_step from_json blob document_protos;;
       loop_protos from_json rest protos)%M
  end.

(** [get_document_protos_from_gcs(output_bucket, output_directory)] *)
Definition get_document_protos_from_gcs (w : Env)
  (from_json : string -> result Document)
  (output_bucket output_directory : string) : M (list Document) :=
  (blob_list <- service (ListBlobs output_bucket output_directory)
                  (list_blobs w output_bucket output_directory);;
   loop_protos from_json blob_list [])%M.

(** ** More shapes used in the statements *)

(** The object's name contains [.json]. *)
Definition is_json_blob (blob : Blob) : bool :=
  PyStr.contains ".json" (blob_name blob).

(** A text as [trim_text] leaves it: no newline in it, no whitespace at
    either end. *)
Definition trimmed (s : string) : Prop :=
  all_chars (λ c, negb (Ascii.eqb c PyStr.LF)) s = true
  ∧ (∀ c, first_char s = Some c → PyStr.is_space c = false)
  ∧ (∀ c, last_char s = Some c → PyStr.is_space c = false).

Definition trimmed_record (r : FieldRecord) : Prop :=
  trimmed (fieldName r) ∧ trimmed (fieldNameConfidence r)
  ∧ trimmed (fieldValue r) ∧ trimmed (fieldValueConfidence r).

(** A printable ASCII character, U+0020 to U+007E. *)
Definition is_printable_ascii (c : ascii) : bool :=
  (32 <=? PyStr.code c) && (PyStr.code c <=? 126).

(** The value at the end of a path is a string. *)
Definition str_at (v : json) (keys : list string) : bool :=
  match getpath v keys with
  | inr (JStr _) => true
  | _ => false
  end.

(** An entry as the document schema types it: the values the checks
    subscript are objects, and when the four paths are present both
    contents are strings. *)
Definition entry_typed (field : json) : bool :=
  entry_shaped field
  && (negb (Spec.all_four field)
      || (str_at field name_content && str_at field value_content)).

(** The entries of a page of the schema: the list under ["formFields"],
    none when the key is absent. *)
Definition page_entries (page : json) : option (list json) :=
  match page with
  | JObj items =>
      match Json.lookup "formFields" items with
      | None => Some []
      | Some (JList l) => Some l
      | Some _ => None
      end
  | _ => None
  end.

(** The pages of a document of the schema: the list under ["pages"]. *)
Definition document_pages (v : json) : option (list json) :=
  match v with
  | JObj items =>
      match Json.lookup "pages" items with
      | Some (JList l) => Some l
      | _ => None
      end
  | _ => None
  end.

Definition page_typed (page : json) : bool :=
  match page_entries page with
  | Some entries => forallb entry_typed entries
  | None => false
  end.

(** A parsed document that follows the schema of the Document AI output,
    as far as the flattener reads it. *)
Definition document_typed (v : json) : bool :=
  match document_pages v with
  | Some pages => forallb page_typed pages
  | None => false
  end.

Module Spec2.

(** The record of an entry with its four paths and string contents. *)
Definition record_of_entry (field : json) : option FieldRecord :=
  if Spec.all_four field then
    match getpath field name_content, getpath field name_confidence,
          getpath field value_content, getpath field value_confidence with
    | inr (JStr n), inr cn, inr (JStr v), inr cv =>
        Some (mkFieldRecord (trim_text n) (trim_text (Json.str cn))
                (trim_text v) (trim_text (Json.str cv)))
    | _, _, _, _ => None
    end
  else None.

Definition records_of_page (page : json) : list FieldRecord :=
  omap record_of_entry (default [] (page_entries page)).

(** The records of a document: those of its complete entries, page after
    page, entry after entry. *)
Definition records_of_document (v : json) : list FieldRecord :=
  concat (map records_of_page (default [] (document_pages v))).

(** The entities in the order [extract_document_entities] visits them:
    each entity, then its properties. *)
Definition visited (entities : list Entity) : list Entity :=
  concat (map (λ e, e :: properties e) entities).

(** The values met for a key, in order. *)
Definition values_of (key : string) (es : list Entity) : list string :=
  map new_entity_value (List.filter (λ e, String.eqb (entity_key e) key) es).

(** One value is stored as a string, several as the list of them. *)
Definition pack (vs : list string) : option EntityValue :=
  match vs with
  | [] => None
  | [v] => Some (Scalar v)
  | _ => Some (Many vs)
  end.

End Spec2.

(** An entity without its properties. *)
Definition without_properties (e : Entity) : Entity :=
  mkEntity (type_ e) (mention_text e) (normalized_value e) [].

(** An entity whose properties have lost their own properties. *)
Definition one_level (e : Entity) : Entity :=
  mkEntity (type_ e) (mention_text e) (normalized_value e)
    (map without_properties (properties e)).

(** A computation treats the calls made before it as a prefix it only
    extends: started after [tr], it makes the calls it makes from the
    start and ends the same way. *)
Definition framed {A : Type} (m : M A) : Prop :=
  ∀ tr, m tr = (tr ++ fst (m []), snd (m [])).

(** ** Abbreviations used in the statements *)

(** The submission the handler makes for the object [f] of bucket [b],
    and the answer of Document AI to it. *)
Definition submit_call (w : Env) (b f : string) : call :=
  BatchProcessDocuments
    (processor_path (project_id w) (location w) (processor_id w))
    ("gs://" +:+ b +:+ "/" +:+ f)
    ("gs://" +:+ b +:+ "/" +:+ fmt (gcs_output_uri_prefix w) +:+ "/").

Definition submit_answer (w : Env) (b f : string) : result Operation :=
  batch_process_documents w
    (processor_path (project_id w) (location w) (processor_id w))
    ("gs://" +:+ b +:+ "/" +:+ f)
    ("gs://" +:+ b +:+ "/" +:+ fmt (gcs_output_uri_prefix w) +:+ "/").

Definition wait_call (w : Env) (op : Operation) : call :=
  OperationResult (operation_name op) (timeout w).

(** The directory the results are fetched from, for an identifier. *)
Definition output_directory_of (w : Env) (operation_id : string) : string :=
  fmt (gcs_output_uri_prefix w) +:+ "/" +:+ operation_id.

(** The object name the result is published under. *)
Definition extract_filename_of (input_filename : string) : string :=
  "extractedjson/" +:+ input_filename +:+ ".json".

(** What [process_invoice] does once it has an operation identifier. *)
Definition fetch_and_publish (w : Env) (b f operation_id : string) : M unit :=
  (entities <- get_document_json_from_gcs w b (output_directory_of w operation_id);;
   _ <- create_json w entities b (extract_filename_of f);;
   ret tt)%M.

(** A computation makes no upload: it only appends calls that are not
    uploads. *)
Definition quiet {A : Type} (m : M A) : Prop :=
  ∀ tr, ∃ ext, fst (m tr) = tr ++ ext ∧ uploads ext = [].

(** ** Inputs named in the statements *)

(** The text ["  Total\nAmount \n"]. *)
Definition total_amount_text : string :=
  "  Total" +:+ String PyStr.LF ("Amount " +:+ String PyStr.LF EmptyString).

(** The text ["a\n\nb"]: two newlines in a row inside. *)
Definition two_newlines_text : string :=
  String "a" (String PyStr.LF (String PyStr.LF (String "b" EmptyString))).

(** [{"a": "s"}]: a string under the first key. *)
Definition string_under_a : json := JObj [("a", JStr "s")].

(** An entry whose ["fieldName"] is a string, not an object. *)
Definition entry_name_is_string : json := JObj [("fieldName", JStr "x")].

(** An entry with all four paths, whose name content is a number. *)
Definition entry_content_is_number : json :=
  JObj [("fieldName", JObj [("textAnchor", JObj [("content", JInt 7)]);
                            ("confidence", JInt 1)]);
        ("fieldValue", JObj [("textAnchor", JObj [("content", JStr "v")]);
                             ("confidence", JInt 1)])].

(** An entry with no ["fieldName"], whose ["fieldValue"] is a string. *)
Definition entry_value_is_string : json := JObj [("fieldValue", JStr "x")].

(** An entry with no ["fieldValue"]. *)
Definition entry_without_value : json :=
  JObj [("fieldName", JObj [("textAnchor", JObj [("content", JStr "Date")]);
                            ("confidence", JFloat (PyFloat.of_decimal false 5 (-1)))])].

(** The entry of the end-to-end scenario. *)
Definition total_entry : json :=
  JObj [("fieldName",
         JObj [("textAnchor", JObj [("content", JStr "Total")]);
               ("confidence", JFloat (PyFloat.of_decimal false 98 (-2)))]);
        ("fieldValue",
         JObj [("textAnchor", JObj [("content", JStr "$42.00")]);
               ("confidence", JFloat (PyFloat.of_decimal false 95 (-2)))])].

(** The parsed document of the end-to-end scenario. *)
Definition total_document : json :=
  JObj [("pages", JList [JObj [("formFields", JList [total_entry])]])].

Definition total_record : FieldRecord :=
  mkFieldRecord "Total" "0.98" "$42.00" "0.95".

(** An operation named as Document AI names them, whose wait succeeds. *)
Definition operation_123 : Operation :=
  mkOperation "projects/1/locations/us/operations/123" (λ _, Ok tt).

(** An environment in which every output directory holds one [.json]
    object, the document of the scenario, and every call succeeds. *)
Definition scenario_env (op : Operation) : Env :=
  mkEnv (Some "out") (Some "proj") (Some "us") (Some "proc") 300
    (λ _ _ _, Ok op)
    (λ _ prefix, Ok [mkBlob (prefix +:+ "/invoice-0.json") (Ok "{}")])
    (λ _ _ _ _, Ok tt)
    (λ _, Ok total_document).

(** A second operation, with another identifier. *)
Definition operation_456 : Operation :=
  mkOperation "projects/1/locations/us/operations/456" (λ _, Ok tt).

(** An upload of a PDF invoice. *)
Definition invoice_event : TriggerEvent :=
  mkEvent (Some "bucket") (Some "invoice.pdf") (Some "application/pdf").

(** The same upload announced without a content type. *)
Definition untyped_event : TriggerEvent :=
  mkEvent (Some "bucket") (Some "invoice.pdf") None.

(** An event with an empty bucket name. *)
Definition no_bucket_event : TriggerEvent :=
  mkEvent (Some "") (Some "invoice.pdf") (Some "application/pdf").

(** An operation whose name has no [operations/<digits>] part. *)
Definition operation_unnamed : Operation :=
  mkOperation "projects/1/locations/us/jobs/123" (λ _, Ok tt).

(** A parsed document without ["pages"]. *)
Definition document_without_pages : json := JObj [("text", JStr "Total $42.00")].

(** An environment whose output directory holds the document of the
    scenario followed by a document without ["pages"]. *)
Definition env_with_bad_document : Env :=
  mkEnv (Some "out") (Some "proj") (Some "us") (Some "proc") 300
    (λ _ _ _, Ok operation_123)
    (λ _ _, Ok [mkBlob "out/123/invoice-0.json" (Ok "good");
                mkBlob "out/123/invoice-1.json" (Ok "bad")])
    (λ _ _ _ _, Ok tt)
    (λ data, if String.eqb data "good" then Ok total_document
             else Ok document_without_pages).

(** Two [line_item] entities, as in the specification's example, and the
    same with an empty first mention. *)
Definition no_normalized_value : NormalizedValue := mkNormalizedValue EmptyString false.

Definition line_items_A_B : list Entity :=
  [mkEntity "line_item" "A" no_normalized_value [];
   mkEntity "line_item" "B" no_normalized_value []].

Definition line_items_empty_B : list Entity :=
  [mkEntity "line_item" EmptyString no_normalized_value [];
   mkEntity "line_item" "B" no_normalized_value []].

(** The upload the handler makes for the records [recs], and the answer
    of Cloud Storage to it. *)
Definition upload_call (b f : string) (recs : list FieldRecord) : call :=
  UploadFromString b (extract_filename_of f) (json_dumps recs) "application/json".

Definition upload_answer (w : Env) (b f : string) (recs : list FieldRecord)
  : result unit :=
  upload_from_string w b (extract_filename_of f) (json_dumps recs) "application/json".

(** ** More inputs named in the statements *)

(** The environment [w] with its listing replaced by [blobs]. *)
Definition with_listing (w : Env) (blobs : list Blob) : Env :=
  mkEnv (gcs_output_uri_prefix w) (project_id w) (location w) (processor_id w)
    (timeout w) (batch_process_documents w) (λ _ _, Ok blobs)
    (upload_from_string w) (json_loads w).

(** A listing with a text file before the document of the scenario. *)
Definition listing_txt_json : list Blob :=
  [mkBlob "out/123/notes.txt" (Ok "hello");
   mkBlob "out/123/invoice-0.json" (Ok "{}")].

(** A document with two pages: an incomplete entry on the first, the
    entry of the scenario on the second. *)
Definition two_page_document : json :=
  JObj [("pages", JList [JObj [("formFields", JList [entry_without_value])];
                         JObj [("formFields", JList [total_entry])]])].

(** An environment whose listing holds the text file and the document. *)
Definition env_txt_json : Env := with_listing (scenario_env operation_123) listing_txt_json.

(** A parser of documents that accepts everything. *)
Definition from_json_any : string → result Document := λ _, Ok (mkDocument []).

(** An operation whose wait runs out of time. *)
Definition operation_slow : Operation :=
  mkOperation "projects/1/locations/us/operations/9"
    (λ _, Raise (ExternalError "TimeoutError")).

(** An environment whose output directory holds no object. *)
Definition env_empty_directory : Env := with_listing (scenario_env operation_123) [].

(** * Text normalization *)

#[local] Arguments String.append : simpl nomatch.

Section StringFacts.

Local Open Scope bool_scope.

Lemma lstrip_split (s : string) :
  ∃ before, s = before +:+ PyStr.lstrip s ∧ all_chars PyStr.is_space before = true.
Proof.
  induction s as [|c s IH]; simpl.
  - exists EmptyString. split; reflexivity.
  - destruct (PyStr.is_space c) eqn:Hc.
    + destruct IH as (before & Heq & Hall).
      exists (String c before). split.
      * simpl. f_equal. exact Heq.
      * cbn [all_chars]. rewrite Hc, Hall. reflexivity.
    + exists EmptyString. split; reflexivity.
Qed.

Lemma rstrip_split (s : string) :
  ∃ after, s = PyStr.rstrip s +:+ after ∧ all_chars PyStr.is_space after = true.
Proof.
  induction s as [|c s IH]; simpl.
  - exists EmptyString. split; reflexivity.
  - destruct IH as (after & Heq & Hall).
    destruct (PyStr.rstrip s) as [|d r] eqn:Hr.
    + simpl in Heq. subst after.
      destruct (PyStr.is_space c) eqn:Hc.
      * exists (String c s). simpl. rewrite Hc, Hall. split; reflexivity.
      * exists s. split; [reflexivity | exact Hall].
    + exists after. split; [|exact Hall].
      simpl. f_equal. exact Heq.
Qed.

Lemma lstrip_first (s : string) (c : ascii) :
  first_char (PyStr.lstrip s) = Some c → PyStr.is_space c = false.
Proof.
  induction s as [|d s IH]; simpl; [discriminate|].
  destruct (PyStr.is_space d) eqn:Hd; [exact IH|].
  simpl. intros [= <-]. exact Hd.
Qed.

Lemma rstrip_first (s : string) (c : ascii) :
  first_char s = Some c → PyStr.is_space c = false →
  first_char (PyStr.rstrip s) = Some c.
Proof.
  destruct s as [|d s]; simpl; [discriminate|].
  intros [= ->] Hc. destruct (PyStr.rstrip s); [rewrite Hc|]; reflexivity.
Qed.

Lemma rstrip_last (s : string) (c : ascii) :
  last_char (PyStr.rstrip s) = Some c → PyStr.is_space c = false.
Proof.
  induction s as [|d s IH]; simpl; [discriminate|].
  destruct (PyStr.rstrip s) as [|e r] eqn:Hr.
  - destruct (PyStr.is_space d) eqn:Hd; simpl; [discriminate|].
    intros [= <-]. exact Hd.
  - intros H. apply IH. exact H.
Qed.

Lemma strip_first (s : string) (c : ascii) :
  first_char (PyStr.strip s) = Some c → PyStr.is_space c = false.
Proof.
  unfold PyStr.strip. intros H.
  destruct (PyStr.lstrip s) as [|d t] eqn:Hl; [discriminate H|].
  assert (Hd : PyStr.is_space d = false).
  { apply (lstrip_first s). rewrite Hl. reflexivity. }
  rewrite (rstrip_first (String d t) d eq_refl Hd) in H.
  injection H as <-. exact Hd.
Qed.

(** [replace] with a one-character replacement works character by
    character. *)
Lemma replace_get (old new : ascii) (s : string) (n : nat) :
  String.get n (PyStr.replace old (String new EmptyString) s)
  = (λ c, if Ascii.eqb c old then new else c) <$> String.get n s.
Proof.
  revert n. induction s as [|c s IH]; intros n; simpl; [reflexivity|].
  destruct (Ascii.eqb c old) eqn:Hc; simpl.
  - destruct n; simpl; [rewrite Hc; reflexivity | apply IH].
  - destruct n; simpl; [rewrite Hc; reflexivity | apply IH].
Qed.

Lemma replace_first (old new : ascii) (s : string) :
  first_char (PyStr.replace old (String new EmptyString) s)
  = (λ c, if Ascii.eqb c old then new else c) <$> first_char s.
Proof.
  destruct s as [|c s]; simpl; [reflexivity|].
  destruct (Ascii.eqb c old); reflexivity.
Qed.

Lemma replace_last (old new : ascii) (s : string) :
  last_char (PyStr.replace old (String new EmptyString) s)
  = (λ c, if Ascii.eqb c old then new else c) <$> last_char s.
Proof.
  induction s as [|c s IH]; [reflexivity|].
  destruct s as [|d s].
  - simpl. destruct (Ascii.eqb c old); reflexivity.
  - assert (Hne : ∃ e r, PyStr.replace old (String new EmptyString) (String d s)
                         = String e r).
    { simpl. destruct (Ascii.eqb d old); simpl; eauto. }
    destruct Hne as (e & r & Hne).
    change (last_char (String c (String d s))) with (last_char (String d s)).
    rewrite <- IH. cbn [PyStr.replace] in *. rewrite Hne.
    destruct (Ascii.eqb c old); reflexivity.
Qed.

Lemma replace_no_old (old new : ascii) (s : string) :
  Ascii.eqb new old = false →
  all_chars (λ c, negb (Ascii.eqb c old))
    (PyStr.replace old (String new EmptyString) s) = true.
Proof.
  intros Hnew. induction s as [|c s IH]; simpl; [reflexivity|].
  destruct (Ascii.eqb c old) eqn:Hc; simpl; rewrite ?Hnew, ?Hc, IH; reflexivity.
Qed.

(** Without two newlines in a row, replacing each newline by a space is
    collapsing the runs of newlines. *)
Lemma replace_collapse (s : string) :
  no_double_newline s = true →
  PyStr.replace PyStr.LF (String PyStr.SP EmptyString) s = Spec.collapse_newlines s.
Proof.
  induction s as [|c s IH]; [reflexivity|].
  intros H. cbn [PyStr.replace Spec.collapse_newlines].
  destruct s as [|d s].
  - destruct (Ascii.eqb c PyStr.LF); reflexivity.
  - cbn [no_double_newline] in H. apply andb_prop in H as [Hcd Hs].
    specialize (IH Hs).
    destruct (Ascii.eqb c PyStr.LF) eqn:Hc.
    + destruct (Ascii.eqb d PyStr.LF) eqn:Hd; [discriminate Hcd|].
      simpl. f_equal. exact IH.
    + f_equal. exact IH.
Qed.

End StringFacts.

(** C3 (the claim as stated fails).  With two newlines in a row inside
    the text, [trim_text] leaves two spaces, where collapsing the newlines
    to a single space leaves one. *)
Lemma trim_text_two_newlines :
  trim_text two_newlines_text = "a  b"
  ∧ Spec.normalize two_newlines_text = "a b"
  ∧ trim_text two_newlines_text ≠ Spec.normalize two_newlines_text.
Proof. repeat split. vm_compute. discriminate. Qed.

(** C3 (amended).  [trim_text] removes the whitespace at both ends and
    then replaces every newline that is left by one space, character for
    character: the input is some whitespace, the trimmed text, some
    whitespace; the result neither starts nor ends with whitespace and
    holds no newline; it is the trimmed text with each newline turned into
    a space, so a run of newlines becomes as many spaces; when the
    trimmed text has no two newlines in a row this is the spec's
    normalization; and ["  Total\nAmount \n"] gives ["Total Amount"]. *)
Theorem trim_text_normalizes (text : string) :
  (∃ before after,
      text = before +:+ PyStr.strip text +:+ after
      ∧ all_chars PyStr.is_space before = true
      ∧ all_chars PyStr.is_space after = true)
  ∧ (∀ n, String.get n (trim_text text)
          = (λ c, if Ascii.eqb c PyStr.LF then PyStr.SP else c)
              <$> String.get n (PyStr.strip text))
  ∧ (∀ c, first_char (trim_text text) = Some c → PyStr.is_space c = false)
  ∧ (∀ c, last_char (trim_text text) = Some c → PyStr.is_space c = false)
  ∧ all_chars (λ c, negb (Ascii.eqb c PyStr.LF)) (trim_text text) = true
  ∧ (no_double_newline (PyStr.strip text) = true →
     trim_text text = Spec.normalize text)
  ∧ trim_text total_amount_text = "Total Amount".
Proof.
  unfold trim_text. repeat apply conj.
  - destruct (lstrip_split text) as (before & Hb & Hbs).
    destruct (rstrip_split (PyStr.lstrip text)) as (after & Ha & Has).
    exists before, after. unfold PyStr.strip.
    rewrite <- Ha. auto.
  - intros n. apply replace_get.
  - intros c. rewrite replace_first.
    destruct (first_char (PyStr.strip text)) as [d|] eqn:Hd; [|discriminate].
    pose proof (strip_first _ _ Hd) as Hsp.
    simpl. destruct (Ascii.eqb d PyStr.LF) eqn:Hlf.
    + apply Ascii.eqb_eq in Hlf. subst d. discriminate Hsp.
    + intros [= <-]. exact Hsp.
  - intros c. rewrite replace_last.
    destruct (last_char (PyStr.strip text)) as [d|] eqn:Hd; [|discriminate].
    pose proof (rstrip_last _ _ Hd) as Hsp.
    simpl. destruct (Ascii.eqb d PyStr.LF) eqn:Hlf.
    + apply Ascii.eqb_eq in Hlf. subst d. discriminate Hsp.
    + intros [= <-]. exact Hsp.
  - apply replace_no_old. reflexivity.
  - intros H. unfold Spec.normalize. apply replace_collapse. exact H.
  - reflexivity.
Qed.

(** * The nested-key probe and the entries of a page *)

Section KeysExists.

Lemma getpath_app (v : json) (pre post : list string) :
  getpath v (pre ++ post) = (x <-r getpath v pre; getpath x post).
Proof.
  revert v. induction pre as [|k pre IH]; intros v; simpl; [reflexivity|].
  destruct (Json.getitem v k) as [e|y]; simpl; [reflexivity | apply IH].
Qed.

(** The loop answers [False] only at a dictionary that lacks the next
    key. *)
Lemma keys_exists_loop_false (v : json) (keys : list string) :
  keys_exists_loop v keys = Ok false →
  ∃ pre key post items,
    keys = pre ++ key :: post
    ∧ getpath v pre = Ok (JObj items)
    ∧ Json.getitem (JObj items) key = Raise KeyError.
Proof.
  revert v. induction keys as [|k keys IH]; intros v H; simpl in H.
  - discriminate H.
  - destruct v as [| b | z | x | s | l | items]; simpl in H; try discriminate H.
    destruct (Json.lookup k items) as [y|] eqn:Hk; simpl in H.
    + destruct (IH y H) as (pre & key & post & items' & -> & Hp & Hg).
      exists (k :: pre), key, post, items'. repeat split; [|exact Hg].
      simpl. rewrite Hk. exact Hp.
    + exists [], k, keys, items. repeat split. simpl. rewrite Hk. reflexivity.
Qed.

(** The loop raises [TypeError] when it has to subscript a value that is
    not a dictionary. *)
Lemma keys_exists_loop_nondict (v x : json) (pre post : list string) (key : string) :
  getpath v pre = Ok x → Json.is_dict x = false →
  keys_exists_loop v (pre ++ key :: post) = Raise TypeError.
Proof.
  revert v. induction pre as [|k pre IH]; intros v Hp Hx; simpl in *.
  - injection Hp as ->. destruct x; try discriminate Hx; reflexivity.
  - destruct (Json.getitem v k) as [e|y]; simpl in Hp; [discriminate Hp|].
    apply IH; assumption.
Qed.

Lemma has_path_getpath (v : json) (keys : list string) :
  Spec.has_path v keys = true → ∃ x, getpath v keys = Ok x.
Proof.
  revert v. induction keys as [|k keys IH]; intros v H; simpl in *; [eauto|].
  destruct v; try discriminate H. simpl.
  destruct (Json.lookup k items) as [y|]; [|discriminate H].
  simpl. apply IH. exact H.
Qed.

(** Where only dictionaries get subscripted, the loop raises nothing and
    says whether the path is present. *)
Lemma keys_exists_loop_dicts (v : json) (keys : list string) :
  dicts_along v keys = true → keys_exists_loop v keys = Ok (Spec.has_path v keys).
Proof.
  revert v. induction keys as [|k keys IH]; intros v H; simpl in *; [reflexivity|].
  destruct v; try discriminate H. simpl.
  destruct (Json.lookup k items) as [y|]; [apply IH; exact H | reflexivity].
Qed.

Lemma keys_exists_dicts (v : json) (k : string) (keys : list string) :
  dicts_along v (k :: keys) = true →
  keys_exists v (k :: keys) = Ok (Spec.has_path v (k :: keys)).
Proof.
  intros H. unfold keys_exists.
  destruct v; try discriminate H.
  apply keys_exists_loop_dicts. exact H.
Qed.

Lemma dicts_along_shorter (v : json) (k1 k2 k3 k : string) :
  dicts_along v [k1; k2; k3] = true → dicts_along v [k1; k] = true.
Proof.
  simpl. destruct v; try discriminate.
  destruct (Json.lookup k1 items) as [[]|]; try discriminate; try reflexivity.
  intros _. destruct (Json.lookup k items0); reflexivity.
Qed.

(** On an entry of the schema's shape the condition of line 205 raises
    nothing and says whether the four paths are present. *)
Lemma field_complete_shaped (field : json) :
  entry_shaped field = true → field_complete field = Ok (Spec.all_four field).
Proof.
  unfold entry_shaped, field_complete, Spec.all_four.
  intros H. apply andb_prop in H as [Hn Hv].
  unfold name_confidence, value_confidence.
  rewrite (keys_exists_dicts _ _ _ (dicts_along_shorter _ _ _ _ "confidence" Hn)).
  rewrite (keys_exists_dicts _ _ _ (dicts_along_shorter _ _ _ _ "confidence" Hv)).
  unfold name_content, value_content in *.
  rewrite (keys_exists_dicts _ _ _ Hn), (keys_exists_dicts _ _ _ Hv).
  unfold and_then, rbind.
  repeat match goal with
         | |- context [Spec.has_path ?v ?ks] => destruct (Spec.has_path v ks)
         end; reflexivity.
Qed.

(** Whenever the loop answers, the answer says whether the path is
    present. *)
Lemma keys_exists_loop_answer (v : json) (keys : list string) (b : bool) :
  keys_exists_loop v keys = Ok b → b = Spec.has_path v keys.
Proof.
  revert v. induction keys as [|k keys IH]; intros v H; simpl in *.
  - congruence.
  - destruct v; simpl in H; try discriminate H.
    destruct (Json.lookup k items) as [y|]; simpl in H; [apply IH; exact H | congruence].
Qed.

Lemma keys_exists_answer (v : json) (keys : list string) (b : bool) :
  keys_exists v keys = Ok b → b = Spec.has_path v keys.
Proof.
  unfold keys_exists. destruct (Json.is_dict v); [|discriminate].
  destruct keys; [discriminate|]. apply keys_exists_loop_answer.
Qed.

(** Whenever the condition of line 205 raises nothing, it says whether
    the four paths are present. *)
Lemma field_complete_answer (field : json) (b : bool) :
  field_complete field = Ok b → b = Spec.all_four field.
Proof.
  unfold field_complete, Spec.all_four, and_then, rbind.
  destruct (keys_exists field name_content) as [e|b1] eqn:H1; [discriminate|].
  apply keys_exists_answer in H1. rewrite <- H1.
  destruct b1; [|intros [= <-]; reflexivity].
  destruct (keys_exists field name_confidence) as [e|b2] eqn:H2; [discriminate|].
  apply keys_exists_answer in H2. rewrite <- H2.
  destruct b2; [|intros [= <-]; reflexivity].
  destruct (keys_exists field value_content) as [e|b3] eqn:H3; [discriminate|].
  apply keys_exists_answer in H3. rewrite <- H3.
  destruct b3; [|intros [= <-]; reflexivity].
  intros H4. apply keys_exists_answer in H4. rewrite <- H4. reflexivity.
Qed.

End KeysExists.

Section Probe.

Lemma keys_exists_loop_true (v : json) (keys : list string) :
  keys_exists_loop v keys = Ok true ↔ ∃ x, getpath v keys = Ok x.
Proof.
  revert v. induction keys as [|k keys IH]; intros v; simpl.
  - split; eauto.
  - destruct (Json.getitem v k) as [[]|y]; cbn [rbind].
    + split; [discriminate | intros (x & Hx); discriminate Hx].
    + split; [discriminate | intros (x & Hx); discriminate Hx].
    + split; [discriminate | intros (x & Hx); discriminate Hx].
    + split; [discriminate | intros (x & Hx); discriminate Hx].
    + apply IH.
Qed.

Lemma and_then_true (a b : result bool) :
  and_then a b = Ok true → a = Ok true ∧ b = Ok true.
Proof.
  unfold and_then. destruct a as [e|[]]; cbn [rbind]; try discriminate. auto.
Qed.

Lemma keys_exists_true_getpath (v : json) (keys : list string) :
  keys_exists v keys = Ok true → ∃ x, getpath v keys = Ok x.
Proof.
  unfold keys_exists. destruct (Json.is_dict v); [|discriminate].
  destruct keys; [discriminate|]. apply keys_exists_loop_true.
Qed.

End Probe.

(** C10.  [keys_exists] raises [AttributeError] when its first argument is
    not a dictionary, and when it is given no key.  Given a dictionary and
    at least one key, an answer [False] means that a lookup along the path
    raised [KeyError]: some prefix of the keys leads to a dictionary that
    lacks the next key.  When a proper prefix of the keys leads to a value
    that is not a dictionary, the next subscript raises [TypeError] and
    [keys_exists] raises it too, as for a string under the first key. *)
Theorem keys_exists_raises (element : json) (keys : list string) :
  (Json.is_dict element = false → keys_exists element keys = Raise AttributeError)
  ∧ (keys = [] → keys_exists element keys = Raise AttributeError)
  ∧ (Json.is_dict element = true → keys ≠ [] →
     keys_exists element keys = Ok false →
     ∃ pre key post items,
       keys = pre ++ key :: post
       ∧ getpath element pre = Ok (JObj items)
       ∧ Json.getitem (JObj items) key = Raise KeyError)
  ∧ (Json.is_dict element = true →
     ∀ pre key post x,
       keys = pre ++ key :: post →
       getpath element pre = Ok x →
       Json.is_dict x = false →
       keys_exists element keys = Raise TypeError)
  ∧ keys_exists string_under_a ["a"; "b"] = Raise TypeError.
Proof.
  repeat apply conj.
  - intros H. unfold keys_exists. rewrite H. reflexivity.
  - intros ->. unfold keys_exists. destruct (Json.is_dict element); reflexivity.
  - intros Hd Hk H. unfold keys_exists in H. rewrite Hd in H. simpl in H.
    destruct keys as [|k keys]; [congruence|].
    apply keys_exists_loop_false. exact H.
  - intros Hd pre key post x -> Hp Hx. unfold keys_exists. rewrite Hd. simpl.
    destruct (pre ++ key :: post) as [|k ks] eqn:E.
    + destruct pre; discriminate E.
    + rewrite <- E. eapply keys_exists_loop_nondict; eassumption.
  - reflexivity.
Qed.

(** C2 (the claim as stated fails).  An entry whose ["fieldName"] is a
    string lacks the path to the name content, yet the loop over the
    entries does not pass over it: it raises [TypeError].  And an entry
    with all four paths whose name content is a number yields no record:
    the loop raises [AttributeError]. *)
Lemma incomplete_entry_can_raise :
  Spec.all_four entry_name_is_string = false
  ∧ loop_fields [entry_name_is_string] [] = Raise TypeError
  ∧ Spec.all_four entry_content_is_number = true
  ∧ loop_fields [entry_content_is_number] [] = Raise AttributeError.
Proof. repeat split. Qed.

(** C2 (amended).  The four checks of an entry either raise or answer,
    and when they answer they say whether the four paths are present.
    They answer on every entry that is an object whose ["fieldName"],
    ["fieldValue"] and their ["textAnchor"] are objects where present, and
    on others too (the checks stop at the first missing path).  For every
    entry on which they answer: when a path is missing, the entry adds no
    record, raises nothing, and the loop goes on with the next entry;
    when all four are present, the four subscripts succeed and the entry
    adds exactly one record, made of the trimmed contents and the trimmed
    [str] of the confidences, and the loop goes on, unless a content is
    not a string, in which case [trim_text] raises [AttributeError].  When
    the checks raise, the loop raises the same exception. *)
Theorem incomplete_entries_dropped
  (field : json) (fields : list json) (json_objects : list FieldRecord) :
  (entry_shaped field = true → field_complete field = Ok (Spec.all_four field))
  ∧ (∀ b, field_complete field = Ok b → b = Spec.all_four field)
  ∧ (field_complete field = Ok false →
     loop_fields (field :: fields) json_objects = loop_fields fields json_objects)
  ∧ (field_complete field = Ok true →
     ∃ c1 cn c3 cv,
       getpath field name_content = Ok c1
       ∧ getpath field name_confidence = Ok cn
       ∧ getpath field value_content = Ok c3
       ∧ getpath field value_confidence = Ok cv
       ∧ loop_fields (field :: fields) json_objects
         = match c1, c3 with
           | JStr n, JStr v =>
               loop_fields fields
                 (json_objects ++ [mkFieldRecord (trim_text n) (trim_text (Json.str cn))
                                     (trim_text v) (trim_text (Json.str cv))])
           | _, _ => Raise AttributeError
           end)
  ∧ (∀ e, field_complete field = Raise e →
          loop_fields (field :: fields) json_objects = Raise e).
Proof.
  repeat apply conj.
  - apply field_complete_shaped.
  - apply field_complete_answer.
  - intros Hc. cbn [loop_fields]. rewrite Hc. reflexivity.
  - intros Hc. cbn [loop_fields]. rewrite Hc. cbn [rbind].
    unfold field_complete in Hc.
    apply and_then_true in Hc as [H1 Hc].
    apply and_then_true in Hc as [H2 Hc].
    apply and_then_true in Hc as [H3 H4].
    destruct (keys_exists_true_getpath _ _ H1) as (c1 & Hc1).
    destruct (keys_exists_true_getpath _ _ H2) as (cn & Hcn).
    destruct (keys_exists_true_getpath _ _ H3) as (c3 & Hc3).
    destruct (keys_exists_true_getpath _ _ H4) as (cv & Hcv).
    exists c1, cn, c3, cv. repeat split; try assumption.
    unfold field_item. rewrite Hc1, Hcn, Hc3, Hcv.
    destruct c1, c3; reflexivity.
  - intros e Hc. cbn [loop_fields]. rewrite Hc. reflexivity.
Qed.

Lemma incomplete_entries_dropped_witness :
  entry_shaped entry_value_is_string = false
  ∧ loop_fields [entry_value_is_string; entry_without_value; total_entry] []
    = Ok [total_record].
Proof.
  split; [reflexivity|].
  rewrite (proj1 (proj2 (proj2 (incomplete_entries_dropped entry_value_is_string
                                  [entry_without_value; total_entry] [])))
             eq_refl).
  rewrite (proj1 (proj2 (proj2 (incomplete_entries_dropped entry_without_value
                                  [total_entry] [])))
             eq_refl).
  destruct (proj1 (proj2 (proj2 (proj2 (incomplete_entries_dropped total_entry [] []))))
              eq_refl) as (c1 & cn & c3 & cv & H1 & Hn & H3 & Hv & Hloop).
  rewrite Hloop.
  injection H1 as <-. injection Hn as <-. injection H3 as <-. injection Hv as <-.
  vm_compute. reflexivity.
Defined.

(** * The fetcher and flattener *)

(** The document of the scenario flattens to its one record; the
    confidences [0.98] and [0.95] print as they were written. *)
Lemma flatten_total_document :
  flatten_document total_document [] = Ok [mkFieldRecord "Total" "0.98" "$42.00" "0.95"].
Proof. vm_compute. reflexivity. Qed.

(** C1.  When the listing holds a single object, its name contains
    [.json], and its content parses to the document of the scenario, the
    fetcher lists, downloads that object, and returns exactly the one
    record with the name ["Total"], the value ["$42.00"] and the
    confidences as the strings ["0.98"] and ["0.95"]. *)
Theorem single_document_flattened
  (w : Env) (output_bucket output_directory : string) (blob : Blob) (data : string) :
  list_blobs w output_bucket output_directory = Ok [blob] →
  PyStr.contains ".json" (blob_name blob) = true →
  download_as_string blob = Ok data →
  json_loads w data = Ok total_document →
  run (get_document_json_from_gcs w output_bucket output_directory)
  = ([ListBlobs output_bucket output_directory; DownloadAsString (blob_name blob)],
     Ok [mkFieldRecord "Total" "0.98" "$42.00" "0.95"]).
Proof.
  intros Hlist Hname Hdown Hparse.
  unfold run, get_document_json_from_gcs, bind, service.
  rewrite Hlist. cbn [loop_blobs]. unfold bind, blob_step.
  rewrite Hname. unfold bind, service, lift, ret.
  rewrite Hdown, Hparse. cbn [app].
  rewrite flatten_total_document. reflexivity.
Qed.

Lemma single_document_flattened_witness :
  run (get_document_json_from_gcs (scenario_env operation_123) "bucket" "out/123")
  = ([ListBlobs "bucket" "out/123"; DownloadAsString "out/123/invoice-0.json"],
     Ok [total_record]).
Proof.
  apply (single_document_flattened (scenario_env operation_123) "bucket" "out/123"
           (mkBlob "out/123/invoice-0.json" (Ok "{}")) "{}");
    reflexivity.
Defined.

(** * The search for the operation identifier *)

Section Search.

Lemma append_assoc (a b c : string) : (a +:+ b) +:+ c = a +:+ b +:+ c.
Proof. induction a as [|x a IH]; simpl; [reflexivity | f_equal; exact IH]. Qed.

Lemma append_nil_r (a : string) : a +:+ EmptyString = a.
Proof. induction a as [|x a IH]; simpl; [reflexivity | f_equal; exact IH]. Qed.

Lemma eqb_nocase_sym (a b : ascii) : PyStr.eqb_nocase a b = PyStr.eqb_nocase b a.
Proof. unfold PyStr.eqb_nocase. apply Ascii.eqb_sym. Qed.

Lemma match_literal_sound (lit s rest : string) :
  Re.match_literal lit s = Some rest →
  ∃ found, s = found +:+ rest ∧ same_nocase found lit = true.
Proof.
  revert s. induction lit as [|a lit IH]; intros s H; simpl in H.
  - injection H as ->. exists EmptyString. split; reflexivity.
  - destruct s as [|b s]; [discriminate H|].
    destruct (PyStr.eqb_nocase a b) eqn:Hab; [|discriminate H].
    destruct (IH s H) as (found & -> & Hf).
    exists (String b found). split; [reflexivity|].
    simpl. rewrite eqb_nocase_sym, Hab. exact Hf.
Qed.

Lemma match_literal_complete (lit found rest : string) :
  same_nocase found lit = true →
  Re.match_literal lit (found +:+ rest) = Some rest.
Proof.
  revert found. induction lit as [|a lit IH]; intros [|b found] H;
    simpl in *; try discriminate H; [reflexivity|].
  apply andb_prop in H as [Hab Hf].
  rewrite eqb_nocase_sym, Hab. apply IH. exact Hf.
Qed.

Lemma take_digits_split (s : string) :
  ∃ after,
    s = Re.take_digits s +:+ after
    ∧ all_chars PyStr.is_digit (Re.take_digits s) = true
    ∧ ∀ c, first_char after = Some c → PyStr.is_digit c = false.
Proof.
  induction s as [|c s IH]; simpl.
  - exists EmptyString. repeat split. intros c [=].
  - destruct (PyStr.is_digit c) eqn:Hc.
    + destruct IH as (after & Heq & Hall & Hnext).
      exists after. simpl. rewrite Hc, Hall. repeat split; [|exact Hnext].
      f_equal. exact Heq.
    + exists (String c s). repeat split. simpl. intros d [= <-]. exact Hc.
Qed.

Lemma take_digits_group (ds after : string) :
  all_chars PyStr.is_digit ds = true →
  (∀ c, first_char after = Some c → PyStr.is_digit c = false) →
  Re.take_digits (ds +:+ after) = ds.
Proof.
  intros Hall Hnext. induction ds as [|c ds IH]; simpl in *.
  - destruct after as [|d after]; [reflexivity|].
    simpl. rewrite (Hnext d eq_refl). reflexivity.
  - apply andb_prop in Hall as [Hc Hall]. rewrite Hc. f_equal. apply IH. exact Hall.
Qed.


(** The matcher at one position finds exactly the greedy match there. *)
Lemma match_here_iff (t ds : string) :
  Re.match_here t = Some ds ↔ Spec.matches_at t ds.
Proof.
  unfold Re.match_here, Spec.matches_at. split.
  - destruct (Re.match_literal Re.literal t) as [rest|] eqn:Hl; [|discriminate].
    destruct (match_literal_sound _ _ _ Hl) as (lit & -> & Hlit).
    destruct (take_digits_split rest) as (after & Hrest & Hall & Hnext).
    destruct (Re.take_digits rest) as [|c g] eqn:Hg; [discriminate|].
    intros [= <-]. exists lit, after. rewrite <- Hrest. repeat split; auto; discriminate.
  - intros (lit & after & -> & Hlit & Hne & Hall & Hnext).
    rewrite (match_literal_complete _ _ _ Hlit).
    rewrite (take_digits_group _ _ Hall Hnext).
    destruct ds; [congruence | reflexivity].
Qed.

Lemma match_here_none (t : string) :
  Re.match_here t = None ↔ ∀ d, ¬ Spec.matches_at t d.
Proof.
  split.
  - intros H d Hd. apply match_here_iff in Hd. congruence.
  - intros H. destruct (Re.match_here t) as [d|] eqn:Hd; [|reflexivity].
    apply match_here_iff in Hd. destruct (H d Hd).
Qed.

(** [Re.search] returns the digit group of the leftmost match. *)
Lemma search_first_match (s ds : string) :
  Re.search s = Some ds ↔ Spec.first_match s ds.
Proof.
  split.
  - induction s as [|c s IH]; intros H.
    + discriminate H.
    + cbn [Re.search] in H.
      destruct (Re.match_here (String c s)) as [d|] eqn:Hd.
      * injection H as ->. exists EmptyString, (String c s).
        split; [reflexivity|]. split; [apply match_here_iff; exact Hd|].
        intros [|x b1] b2 d Hb Hne; simpl in Hb; [congruence | discriminate Hb].
      * destruct (IH H) as (before & t & -> & Hat & Hleft).
        exists (String c before), t. split; [reflexivity|]. split; [exact Hat|].
        intros [|x b1] b2 d Hb Hne; simpl in Hb.
        -- subst b2. apply (proj1 (match_here_none _) Hd).
        -- injection Hb as -> ->. exact (Hleft b1 b2 d eq_refl Hne).
  - intros (before & t & -> & Hat & Hleft).
    induction before as [|c before IH].
    + simpl. apply match_here_iff in Hat.
      destruct t; cbn [Re.search]; rewrite Hat; reflexivity.
    + change (String c before +:+ t) with (String c (before +:+ t)).
      cbn [Re.search].
      assert (Hnone : Re.match_here (String c (before +:+ t)) = None).
      { apply match_here_none. intros d.
        apply (Hleft EmptyString (String c before) d); [reflexivity | discriminate]. }
      rewrite Hnone. apply IH.
      intros b1 b2 d -> Hne. exact (Hleft (String c b1) b2 d eq_refl Hne).
Qed.



End Search.

(** * The handler *)

Section Quiet.

Lemma quiet_ret {A : Type} (a : A) : quiet (ret a).
Proof. intros tr. exists []. rewrite app_nil_r. split; reflexivity. Qed.

Lemma quiet_lift {A : Type} (r : result A) : quiet (lift r).
Proof. intros tr. exists []. rewrite app_nil_r. split; reflexivity. Qed.

Lemma quiet_service {A : Type} (c : call) (r : result A) :
  is_upload c = false → quiet (service c r).
Proof.
  intros Hc tr. exists [c]. split; [reflexivity|].
  unfold uploads. simpl. rewrite Hc. reflexivity.
Qed.

Lemma quiet_bind {A B : Type} (m : M A) (k : A → M B) :
  quiet m → (∀ a, quiet (k a)) → quiet (bind m k).
Proof.
  intros Hm Hk tr. unfold bind.
  destruct (Hm tr) as (ext & Hext & Hq).
  destruct (m tr) as [tr' [e|a]]; simpl in Hext; subst tr'.
  - exists ext. split; [reflexivity | exact Hq].
  - destruct (Hk a (tr ++ ext)) as (ext' & Hext' & Hq').
    exists (ext ++ ext'). rewrite Hext', app_assoc. split; [reflexivity|].
    unfold uploads in *. rewrite List.filter_app, Hq, Hq'. reflexivity.
Qed.

Lemma quiet_blob_step (w : Env) (blob : Blob) (objs : list FieldRecord) :
  quiet (blob_step w blob objs).
Proof.
  unfold blob_step. destruct (PyStr.contains ".json" (blob_name blob)).
  - apply quiet_bind; [apply quiet_service; reflexivity|].
    intros s. apply quiet_bind; [apply quiet_lift|]. intros v. apply quiet_lift.
  - apply quiet_ret.
Qed.

Lemma quiet_loop_blobs (w : Env) (blobs : list Blob) (objs : list FieldRecord) :
  quiet (loop_blobs w blobs objs).
Proof.
  revert objs. induction blobs as [|blob blobs IH]; intros objs; simpl.
  - apply quiet_ret.
  - apply quiet_bind; [apply quiet_blob_step | exact IH].
Qed.

(** The fetcher uploads nothing. *)
Lemma quiet_get_document_json_from_gcs (w : Env) (b d : string) :
  quiet (get_document_json_from_gcs w b d).
Proof.
  unfold get_document_json_from_gcs.
  apply quiet_bind; [apply quiet_service; reflexivity|].
  intros blobs. apply quiet_loop_blobs.
Qed.

End Quiet.

(** C5.  When the bucket or the object name of the event is missing or
    empty, [process_invoice] returns at once: it calls no service, so it
    writes no output object, and it raises nothing. *)
Theorem missing_bucket_or_name_returns (w : Env) (event : TriggerEvent) :
  bucket event = None ∨ bucket event = Some EmptyString
  ∨ name event = None ∨ name event = Some EmptyString →
  run (process_invoice w event) = ([], Ok tt).
Proof.
  destruct event as [b f c]. simpl.
  intros [-> | [-> | [-> | ->]]]; unfold process_invoice; simpl.
  - reflexivity.
  - destruct f; reflexivity.
  - destruct b; reflexivity.
  - destruct b as [b|]; [|reflexivity].
    destruct (PyStr.truthy b); reflexivity.
Qed.

Lemma missing_bucket_or_name_returns_witness :
  run (process_invoice (scenario_env operation_123) no_bucket_event) = ([], Ok tt).
Proof.
  apply (missing_bucket_or_name_returns (scenario_env operation_123) no_bucket_event).
  right. left. reflexivity.
Defined.

(** C4 (what the code does).  For an event that carries a content type
    outside the accepted set, the empty one included, [process_invoice]
    calls no service and returns without an error.  For an event with a
    bucket and an object name but no content type at all, it calls no
    service either, but it does not end silently: building the log line
    ['Cannot parse the file type: ' + mime_type] raises [TypeError]. *)
Theorem missing_content_type_raises (w : Env) :
  (∀ event m,
      contentType event = Some m → m ∉ ACCEPTED_MIME_TYPES →
      run (process_invoice w event) = ([], Ok tt))
  ∧ (∀ b f,
        PyStr.truthy b = true → PyStr.truthy f = true →
        run (process_invoice w (mkEvent (Some b) (Some f) None))
        = ([], Raise TypeError))
  ∧ run (process_invoice w untyped_event) = ([], Raise TypeError).
Proof.
  repeat apply conj.
  - intros [b f c] m Hc Hm. simpl in Hc. subst c.
    unfold process_invoice. simpl.
    destruct b as [b|], f as [f|]; try reflexivity.
    destruct (negb (PyStr.truthy b) || negb (PyStr.truthy f)); [reflexivity|].
    rewrite bool_decide_eq_true_2 by exact Hm. reflexivity.
  - intros b f Hb Hf. unfold process_invoice. simpl. rewrite Hb, Hf. reflexivity.
  - reflexivity.
Qed.

Section Invocation.

Variables (w : Env) (b f m : string) (op : Operation).

Hypothesis bucket_given : PyStr.truthy b = true.
Hypothesis name_given : PyStr.truthy f = true.
Hypothesis type_accepted : m ∈ ACCEPTED_MIME_TYPES.
Hypothesis submitted : submit_answer w b f = Ok op.
Hypothesis waited : operation_result op (timeout w) = Ok tt.

(** After validation, submission and a wait that succeeds, the handler
    searches the operation name for the identifier. *)
Lemma process_invoice_after_wait :
  run (process_invoice w (mkEvent (Some b) (Some f) (Some m)))
  = match Re.search (operation_name op) with
    | Some operation_id =>
        fetch_and_publish w b f operation_id [submit_call w b f; wait_call w op]
    | None => ([submit_call w b f; wait_call w op], Raise AttributeError)
    end.
Proof.
  unfold process_invoice. cbn [bucket name contentType].
  rewrite bucket_given, name_given. cbn [negb orb not_accepted].
  rewrite bool_decide_eq_false_2 by (intros Hn; exact (Hn type_accepted)).
  unfold run, bind, lift, _batch_process_documents, service, concat_opt.
  cbn [app].
  unfold submit_answer in submitted. rewrite submitted.
  cbn [app]. rewrite waited.
  destruct (Re.search (operation_name op)) as [operation_id|]; reflexivity.
Qed.

End Invocation.



(** A name without the pattern: the run ends in [AttributeError] after
    two calls. *)
Example unnamed_operation_fails :
  run (process_invoice (scenario_env operation_unnamed) invoice_event)
  = ([submit_call (scenario_env operation_unnamed) "bucket" "invoice.pdf";
      wait_call (scenario_env operation_unnamed) operation_unnamed],
     Raise AttributeError).
Proof. reflexivity. Qed.

Section Abort.

Lemma flatten_without_pages (v : json) (objs : list FieldRecord) :
  has_pages v = false → ∃ e, flatten_document v objs = Raise e.
Proof.
  unfold has_pages, flatten_document.
  destruct v; simpl; eauto.
  destruct (Json.lookup "pages" items); [discriminate | simpl; eauto].
Qed.

Lemma loop_blobs_raises (w : Env) (blobs : list Blob) (blob : Blob)
  (data : string) (v : json) :
  blob ∈ blobs →
  PyStr.contains ".json" (blob_name blob) = true →
  download_as_string blob = Ok data →
  json_loads w data = Ok v →
  has_pages v = false →
  ∀ objs tr, ∃ tr' e, loop_blobs w blobs objs tr = (tr', Raise e).
Proof.
  intros Hin Hname Hdown Hparse Hpages.
  induction blobs as [|blob0 blobs IH]; intros objs tr.
  - apply elem_of_nil in Hin. destruct Hin.
  - cbn [loop_blobs]. unfold bind at 1.
    apply elem_of_cons in Hin as [<- | Hin].
    + unfold blob_step. rewrite Hname. unfold bind, service, lift.
      rewrite Hdown, Hparse.
      destruct (flatten_without_pages v objs Hpages) as (e & ->).
      eauto.
    + destruct (blob_step w blob0 objs tr) as [tr1 [e|objs1]]; [eauto|].
      apply IH. exact Hin.
Qed.

End Abort.

(** C9.  When some listed object whose name contains [.json] parses to a
    value with no top-level ["pages"] key, or to a value that is not an
    object, the fetcher does not skip it: [get_document_json_from_gcs]
    raises, whatever the other objects hold.  In an invocation that has
    reached the fetch, the exception ends [process_invoice], and no upload
    has been made. *)
Theorem document_without_pages_aborts
  (w : Env) (output_bucket output_directory : string)
  (blobs : list Blob) (blob : Blob) (data : string) (v : json) :
  list_blobs w output_bucket output_directory = Ok blobs →
  blob ∈ blobs →
  PyStr.contains ".json" (blob_name blob) = true →
  download_as_string blob = Ok data →
  json_loads w data = Ok v →
  has_pages v = false →
  (∃ tr e, run (get_document_json_from_gcs w output_bucket output_directory)
           = (tr, Raise e))
  ∧ (∀ f m op ds,
        PyStr.truthy output_bucket = true → PyStr.truthy f = true →
        m ∈ ACCEPTED_MIME_TYPES →
        submit_answer w output_bucket f = Ok op →
        operation_result op (timeout w) = Ok tt →
        Re.search (operation_name op) = Some ds →
        output_directory = output_directory_of w ds →
        ∃ tr e,
          run (process_invoice w (mkEvent (Some output_bucket) (Some f) (Some m)))
          = (tr, Raise e)
          ∧ uploads tr = []).
Proof.
  intros Hlist Hin Hname Hdown Hparse Hpages.
  assert (Hfetch : ∀ tr, ∃ tr' e,
             get_document_json_from_gcs w output_bucket output_directory tr
             = (tr', Raise e)).
  { intros tr. unfold get_document_json_from_gcs, bind, service.
    rewrite Hlist.
    eapply loop_blobs_raises; eassumption. }
  split; [apply Hfetch|].
  intros f m op ds Hb Hf Hm Hsub Hwait Hsearch ->.
  rewrite (process_invoice_after_wait w output_bucket f m op Hb Hf Hm Hsub Hwait).
  rewrite Hsearch. unfold fetch_and_publish, bind.
  set (tr0 := [submit_call w output_bucket f; wait_call w op]).
  destruct (Hfetch tr0) as (tr' & e & Hraise).
  destruct (quiet_get_document_json_from_gcs w output_bucket
              (output_directory_of w ds) tr0) as (ext & Hext & Hq).
  rewrite Hraise in Hext |- *. simpl in Hext. subst tr'.
  exists (tr0 ++ ext), e. split; [reflexivity|].
  unfold uploads in *. rewrite List.filter_app, Hq. reflexivity.
Qed.

Lemma document_without_pages_aborts_witness :
  ∃ tr e,
    run (process_invoice env_with_bad_document invoice_event) = (tr, Raise e)
    ∧ uploads tr = [].
Proof.
  refine (proj2 (document_without_pages_aborts env_with_bad_document
                   "bucket" "out/123"
                   [mkBlob "out/123/invoice-0.json" (Ok "good");
                    mkBlob "out/123/invoice-1.json" (Ok "bad")]
                   (mkBlob "out/123/invoice-1.json" (Ok "bad")) "bad"
                   document_without_pages _ _ _ _ _ _)
            "invoice.pdf" "application/pdf" operation_123 "123" _ _ _ _ _ _ _);
    try reflexivity.
  apply list_elem_of_further, list_elem_of_here.
Defined.

(** * Where the result is published *)

(** Every run of the handler makes calls that are not uploads, followed
    by at most one upload, to the object named after the input object. *)
Lemma process_invoice_trace (w : Env) (event : TriggerEvent) :
  ∃ calls,
    uploads calls = []
    ∧ (fst (run (process_invoice w event)) = calls
       ∨ ∃ b f data,
           bucket event = Some b ∧ name event = Some f
           ∧ fst (run (process_invoice w event))
             = calls ++ [UploadFromString b (extract_filename_of f) data
                           "application/json"]).
Proof.
  destruct event as [[b|] [f|] c]; unfold process_invoice;
    cbn [bucket name contentType];
    try (exists []; split; [reflexivity | left; reflexivity]).
  destruct (negb (PyStr.truthy b) || negb (PyStr.truthy f));
    [exists []; split; [reflexivity | left; reflexivity]|].
  destruct (not_accepted c).
  { unfold run, bind, lift. destruct (concat_opt _ c);
      exists []; split; try reflexivity; left; reflexivity. }
  unfold run, bind, lift, _batch_process_documents, service. cbn [app].
  destruct (concat_opt _ c); [exists []; split; [reflexivity | left; reflexivity]|].
  fold (submit_call w b f).
  destruct (batch_process_documents _ _ _ _) as [e|op].
  { exists [submit_call w b f]. split; [reflexivity | left; reflexivity]. }
  fold (wait_call w op).
  destruct (operation_result op (timeout w)) as [e|[]].
  { exists [submit_call w b f; wait_call w op].
    split; [reflexivity | left; reflexivity]. }
  destruct (Re.search (operation_name op)) as [ds|].
  2:{ exists [submit_call w b f; wait_call w op].
      split; [reflexivity | left; reflexivity]. }
  destruct (quiet_get_document_json_from_gcs w b
              (fmt (gcs_output_uri_prefix w) +:+ "/" +:+ ds)
              [submit_call w b f; wait_call w op]) as (ext & Hext & Hq).
  destruct (get_document_json_from_gcs w b
              (fmt (gcs_output_uri_prefix w) +:+ "/" +:+ ds)
              [submit_call w b f; wait_call w op]) as [tr' [e|entities]];
    cbn [fst] in Hext; subst tr';
    (exists ([submit_call w b f; wait_call w op] ++ ext); split;
     [unfold uploads in *; rewrite List.filter_app, Hq; reflexivity|]).
  - left. reflexivity.
  - right. unfold create_json, bind, service, ret.
    exists b, f, (json_dumps entities). repeat split.
    destruct (upload_from_string _ _ _ _ _); reflexivity.
Qed.

Lemma upload_of_process_invoice (w : Env) (event : TriggerEvent) (c : call) :
  c ∈ fst (run (process_invoice w event)) → is_upload c = true →
  ∃ b f, bucket event = Some b ∧ name event = Some f
         ∧ upload_destination c = Some (b, extract_filename_of f).
Proof.
  intros Hin Hup.
  assert (Hnot : ∀ calls, uploads calls = [] → c ∉ calls).
  { intros calls Hq Hc.
    assert (Hf : In c (uploads calls)).
    { apply List.filter_In. split; [apply list_elem_of_In; exact Hc | exact Hup]. }
    rewrite Hq in Hf. destruct Hf. }
  destruct (process_invoice_trace w event) as (calls & Hq & [Heq | Heq]).
  - rewrite Heq in Hin. destruct (Hnot calls Hq Hin).
  - destruct Heq as (b & f & data & Hb & Hf & Heq).
    rewrite Heq in Hin. apply elem_of_app in Hin as [Hin | Hin].
    + destruct (Hnot calls Hq Hin).
    + apply list_elem_of_singleton in Hin. subst c.
      exists b, f. repeat split; assumption.
Qed.

(** C8 (the claim as stated fails).  Two invocations for the same input
    object whose operations have different identifiers, [123] and [456],
    both upload to the same bucket and object name. *)
Lemma rerun_uploads_to_same_path :
  Re.search (operation_name operation_123) = Some "123"
  ∧ Re.search (operation_name operation_456) = Some "456"
  ∧ Re.search (operation_name operation_123) ≠ Re.search (operation_name operation_456)
  ∧ upload_destination
      <$> uploads (fst (run (process_invoice (scenario_env operation_123) invoice_event)))
    = [Some ("bucket", "extractedjson/invoice.pdf.json")]
  ∧ upload_destination
      <$> uploads (fst (run (process_invoice (scenario_env operation_456) invoice_event)))
    = [Some ("bucket", "extractedjson/invoice.pdf.json")].
Proof. repeat split; vm_compute; (reflexivity || discriminate). Qed.

(** C8 (amended).  The object name of the published result is
    ["extractedjson/" + name + ".json"] in the bucket of the event: it
    depends on the event only, not on the operation identifier.  So any
    two uploads made by invocations for the same event, in whatever
    environments and with whatever identifiers, go to the same bucket and
    object name, and a rerun overwrites the earlier output. *)
Theorem upload_path_from_event_only
  (w1 w2 : Env) (event : TriggerEvent) (c1 c2 : call) :
  c1 ∈ fst (run (process_invoice w1 event)) → is_upload c1 = true →
  c2 ∈ fst (run (process_invoice w2 event)) → is_upload c2 = true →
  ∃ b f,
    bucket event = Some b ∧ name event = Some f
    ∧ upload_destination c1 = Some (b, "extractedjson/" +:+ f +:+ ".json")
    ∧ upload_destination c2 = upload_destination c1.
Proof.
  intros H1 U1 H2 U2.
  destruct (upload_of_process_invoice w1 event c1 H1 U1) as (b & f & Hb & Hf & Hd1).
  destruct (upload_of_process_invoice w2 event c2 H2 U2) as (b' & f' & Hb' & Hf' & Hd2).
  exists b, f. repeat split; try assumption.
  rewrite Hd1, Hd2. congruence.
Qed.

Lemma upload_path_from_event_only_witness :
  ∃ b f,
    bucket invoice_event = Some b ∧ name invoice_event = Some f
    ∧ upload_destination
        (UploadFromString "bucket" "extractedjson/invoice.pdf.json"
           (json_dumps [total_record]) "application/json")
      = Some (b, "extractedjson/" +:+ f +:+ ".json")
    ∧ upload_destination
        (UploadFromString "bucket" "extractedjson/invoice.pdf.json"
           (json_dumps [total_record]) "application/json")
      = upload_destination
          (UploadFromString "bucket" "extractedjson/invoice.pdf.json"
             (json_dumps [total_record]) "application/json").
Proof.
  apply (upload_path_from_event_only (scenario_env operation_123)
           (scenario_env operation_456) invoice_event).
  - vm_compute. do 4 apply list_elem_of_further. apply list_elem_of_here.
  - reflexivity.
  - vm_compute. do 4 apply list_elem_of_further. apply list_elem_of_here.
  - reflexivity.
Defined.

(** * The alternate flattener *)

(** C7 (what the code does).  The example of the claim holds: two
    [line_item] entities with the mentions ["A"] and ["B"] give the list
    [["A"; "B"]].  In general a key seen for the first time stores a
    string, and a later occurrence turns a stored value that is true into
    a list and appends.  But the test is the truth value of the stored
    value: a stored empty string is false, so the next occurrence
    replaces it by a string instead of building a list, as for the
    mentions [""] and ["B"]. *)
Theorem empty_value_is_not_promoted :
  extract_document_entities line_items_A_B !! "line_item" = Some (Many ["A"; "B"])
  ∧ (∀ entity d,
        d !! entity_key entity = None →
        extract_document_entity entity d !! entity_key entity
        = Some (Scalar (new_entity_value entity)))
  ∧ (∀ entity d existing,
        d !! entity_key entity = Some existing →
        value_truthy existing = true →
        extract_document_entity entity d !! entity_key entity
        = Some (Many (as_list existing ++ [new_entity_value entity])))
  ∧ (∀ entity d,
        d !! entity_key entity = Some (Scalar EmptyString) →
        extract_document_entity entity d !! entity_key entity
        = Some (Scalar (new_entity_value entity)))
  ∧ extract_document_entities line_items_empty_B !! "line_item" = Some (Scalar "B").
Proof.
  repeat apply conj.
  - vm_compute. reflexivity.
  - intros entity d Hd. unfold extract_document_entity. rewrite Hd.
    apply lookup_insert_eq.
  - intros entity d existing Hd Ht. unfold extract_document_entity.
    rewrite Hd, Ht. apply lookup_insert_eq.
  - intros entity d Hd. unfold extract_document_entity. rewrite Hd. simpl.
    apply lookup_insert_eq.
  - vm_compute. reflexivity.
Qed.

(** * More on the flattener *)

Section Accumulator.

Lemma loop_fields_acc (fields : list json) (acc : list FieldRecord) :
  loop_fields fields acc = (new <-r loop_fields fields []; Ok (acc ++ new)).
Proof.
  revert acc. induction fields as [|field fields IH]; intros acc.
  - simpl. rewrite app_nil_r. reflexivity.
  - cbn [loop_fields]. destruct (field_complete field) as [e|[]]; cbn [rbind].
    + reflexivity.
    + destruct (field_item field) as [e|r]; cbn [rbind]; [reflexivity|].
      rewrite (IH (acc ++ [r])), (IH ([] ++ [r])).
      destruct (loop_fields fields []) as [e|new]; cbn [rbind]; [reflexivity|].
      rewrite <- app_assoc. reflexivity.
    + apply IH.
Qed.

Lemma loop_pages_acc (pages : list json) (acc : list FieldRecord) :
  loop_pages pages acc = (new <-r loop_pages pages []; Ok (acc ++ new)).
Proof.
  revert acc. induction pages as [|page pages IH]; intros acc.
  - simpl. rewrite app_nil_r. reflexivity.
  - cbn [loop_pages].
    destruct (keys_exists page ["formFields"]) as [e|[]]; cbn [rbind].
    + reflexivity.
    + destruct (Json.getitem page "formFields") as [e|ff]; cbn [rbind];
        [reflexivity|].
      destruct (Json.iter ff) as [e|fields]; cbn [rbind]; [reflexivity|].
      rewrite (loop_fields_acc fields acc).
      destruct (loop_fields fields []) as [e|new1]; cbn [rbind]; [reflexivity|].
      rewrite (IH (acc ++ new1)), (IH new1).
      destruct (loop_pages pages []) as [e|new2]; cbn [rbind]; [reflexivity|].
      rewrite <- app_assoc. reflexivity.
    + apply IH.
Qed.

Lemma flatten_document_acc (json_data : json) (acc : list FieldRecord) :
  flatten_document json_data acc
  = (new <-r flatten_document json_data []; Ok (acc ++ new)).
Proof.
  unfold flatten_document.
  destruct (Json.getitem json_data "pages") as [e|pv]; cbn [rbind]; [reflexivity|].
  destruct (Json.iter pv) as [e|pages]; cbn [rbind]; [reflexivity|].
  apply loop_pages_acc.
Qed.

End Accumulator.

Section Typed.

Lemma str_at_getpath (v : json) (keys : list string) :
  str_at v keys = true → ∃ s, getpath v keys = Ok (JStr s).
Proof.
  unfold str_at. destruct (getpath v keys) as [e|[]]; try discriminate. eauto.
Qed.

Lemma omap_cons {A B : Type} (f : A → option B) (x : A) (l : list A) :
  omap f (x :: l) = match f x with Some y => y :: omap f l | None => omap f l end.
Proof. reflexivity. Qed.

Lemma loop_fields_typed (entries : list json) (acc : list FieldRecord) :
  forallb entry_typed entries = true →
  loop_fields entries acc = Ok (acc ++ omap Spec2.record_of_entry entries).
Proof.
  revert acc. induction entries as [|field entries IH]; intros acc H.
  - simpl. rewrite app_nil_r. reflexivity.
  - cbn [forallb] in H. apply andb_prop in H as [Hf Hrest].
    unfold entry_typed in Hf. apply andb_prop in Hf as [Hshape Htyped].
    cbn [loop_fields]. rewrite (field_complete_shaped field Hshape).
    cbn [rbind]. rewrite omap_cons. unfold Spec2.record_of_entry at 1.
    destruct (Spec.all_four field) eqn:Hall.
    + simpl in Htyped. apply andb_prop in Htyped as [Hn Hv].
      destruct (str_at_getpath _ _ Hn) as (n & Hgn).
      destruct (str_at_getpath _ _ Hv) as (v & Hgv).
      unfold Spec.all_four in Hall.
      apply andb_prop in Hall as [Hall H4].
      apply andb_prop in Hall as [Hall H3].
      apply andb_prop in Hall as [H1 H2].
      destruct (has_path_getpath _ _ H2) as (cn & Hcn).
      destruct (has_path_getpath _ _ H4) as (cv & Hcv).
      unfold field_item. rewrite Hgn, Hcn, Hgv, Hcv. cbn [rbind trim_text_value].
      rewrite (IH _ Hrest). rewrite <- app_assoc. reflexivity.
    + apply IH. exact Hrest.
Qed.

Lemma loop_pages_typed (pages : list json) (acc : list FieldRecord) :
  forallb page_typed pages = true →
  loop_pages pages acc = Ok (acc ++ concat (map Spec2.records_of_page pages)).
Proof.
  revert acc. induction pages as [|page pages IH]; intros acc H.
  - simpl. rewrite app_nil_r. reflexivity.
  - cbn [forallb] in H. apply andb_prop in H as [Hp Hrest].
    cbn [loop_pages map concat]. unfold Spec2.records_of_page at 1.
    unfold page_typed in Hp.
    destruct page as [| | | | | |items]; try discriminate Hp.
    unfold page_entries in *. unfold keys_exists. cbn [Json.is_dict negb].
    cbn [keys_exists_loop Json.getitem].
    destruct (Json.lookup "formFields" items) as [ff|] eqn:Hff.
    + cbn [rbind]. destruct ff; try discriminate Hp.
      cbn [Json.iter rbind default].
      rewrite (loop_fields_typed _ _ Hp). cbn [rbind].
      rewrite (IH _ Hrest). rewrite <- app_assoc. reflexivity.
    + cbn [rbind default]. rewrite (IH _ Hrest). reflexivity.
Qed.

End Typed.

(** X1.  What a document adds does not depend on the records collected
    before it: flattening a document onto a list of records raises exactly
    when flattening it onto the empty list does, and otherwise returns the
    list followed by the records of the document, so earlier records are
    neither changed nor reordered. *)
Theorem flatten_document_appends (json_data : json) (json_objects : list FieldRecord) :
  flatten_document json_data json_objects
  = match flatten_document json_data [] with
    | inl e => Raise e
    | inr new => Ok (json_objects ++ new)
    end.
Proof. rewrite flatten_document_acc. reflexivity. Qed.

(** X2.  On a parsed document that follows the output schema (["pages"]
    is a list of objects, each ["formFields"], when present, a list of
    entries whose subscripted values are objects and whose contents are
    strings when the four paths are there) the flattener raises nothing and
    returns, after the records it was given, one record for each complete
    entry and none for the others, in the order of the pages and of the
    entries within a page. *)
Theorem typed_document_flattens (json_data : json) (json_objects : list FieldRecord) :
  document_typed json_data = true →
  flatten_document json_data json_objects
  = Ok (json_objects ++ Spec2.records_of_document json_data).
Proof.
  unfold document_typed, Spec2.records_of_document, document_pages, flatten_document.
  destruct json_data as [| | | | | |items]; try discriminate.
  cbn [Json.getitem].
  destruct (Json.lookup "pages" items) as [[| | | | |pages|]|]; try discriminate.
  intros H. cbn [rbind Json.iter default].
  apply loop_pages_typed. exact H.
Qed.

Lemma typed_document_flattens_witness :
  flatten_document two_page_document []
  = Ok ([] ++ Spec2.records_of_document two_page_document)
  ∧ Spec2.records_of_document two_page_document = [total_record].
Proof.
  split.
  - apply (typed_document_flattens two_page_document []). reflexivity.
  - vm_compute. reflexivity.
Defined.

Section Trimmed.

Lemma trim_text_trimmed (s : string) : trimmed (trim_text s).
Proof.
  unfold trimmed, trim_text. repeat apply conj.
  - apply replace_no_old. reflexivity.
  - intros c. rewrite replace_first.
    destruct (first_char (PyStr.strip s)) as [d|] eqn:Hd; [|discriminate].
    pose proof (strip_first _ _ Hd) as Hsp. simpl.
    destruct (Ascii.eqb d PyStr.LF) eqn:Hlf.
    + apply Ascii.eqb_eq in Hlf. subst d. discriminate Hsp.
    + intros [= <-]. exact Hsp.
  - intros c. rewrite replace_last.
    destruct (last_char (PyStr.strip s)) as [d|] eqn:Hd; [|discriminate].
    pose proof (rstrip_last _ _ Hd) as Hsp. simpl.
    destruct (Ascii.eqb d PyStr.LF) eqn:Hlf.
    + apply Ascii.eqb_eq in Hlf. subst d. discriminate Hsp.
    + intros [= <-]. exact Hsp.
Qed.

Lemma lstrip_fixed (s : string) :
  (∀ c, first_char s = Some c → PyStr.is_space c = false) → PyStr.lstrip s = s.
Proof.
  destruct s as [|c s]; [reflexivity|]. simpl. intros H.
  rewrite (H c eq_refl). reflexivity.
Qed.

Lemma rstrip_fixed (s : string) :
  (∀ c, last_char s = Some c → PyStr.is_space c = false) → PyStr.rstrip s = s.
Proof.
  induction s as [|c s IH]; [reflexivity|]. intros H.
  cbn [PyStr.rstrip]. destruct s as [|d s].
  - simpl. rewrite (H c eq_refl). reflexivity.
  - rewrite IH; [reflexivity|]. intros e He. apply H. exact He.
Qed.

Lemma replace_fixed (old : ascii) (new s : string) :
  all_chars (λ c, negb (Ascii.eqb c old)) s = true → PyStr.replace old new s = s.
Proof.
  induction s as [|c s IH]; [reflexivity|]. simpl. intros H.
  apply andb_prop in H as [Hc Hs]. apply negb_true_iff in Hc.
  rewrite Hc, (IH Hs). reflexivity.
Qed.

Lemma trim_text_fixed (s : string) : trimmed s → trim_text s = s.
Proof.
  intros (Hlf & Hfirst & Hlast). unfold trim_text, PyStr.strip.
  rewrite (lstrip_fixed s Hfirst), (rstrip_fixed s Hlast).
  apply replace_fixed. exact Hlf.
Qed.

Lemma field_item_trimmed (field : json) (r : FieldRecord) :
  field_item field = Ok r → trimmed_record r.
Proof.
  unfold field_item.
  destruct (getpath field name_content) as [e|c1]; [discriminate|]. cbn [rbind].
  destruct c1; try discriminate. cbn [trim_text_value rbind].
  destruct (getpath field name_confidence) as [e|c2]; [discriminate|]. cbn [rbind].
  destruct (getpath field value_content) as [e|c3]; [discriminate|]. cbn [rbind].
  destruct c3; try discriminate. cbn [trim_text_value rbind].
  destruct (getpath field value_confidence) as [e|c4]; [discriminate|]. cbn [rbind].
  intros [= <-]. repeat split; apply trim_text_trimmed.
Qed.

Lemma loop_fields_trimmed (fields : list json) (acc recs : list FieldRecord) :
  loop_fields fields acc = Ok recs →
  Forall trimmed_record acc → Forall trimmed_record recs.
Proof.
  revert acc. induction fields as [|field fields IH]; intros acc H Hacc.
  - injection H as <-. exact Hacc.
  - cbn [loop_fields] in H.
    destruct (field_complete field) as [e|[]]; cbn [rbind] in H; [discriminate| |].
    + destruct (field_item field) as [e|r] eqn:Hr; cbn [rbind] in H; [discriminate|].
      apply (IH _ H). apply Forall_app. split; [exact Hacc|].
      constructor; [|constructor]. exact (field_item_trimmed _ _ Hr).
    + exact (IH _ H Hacc).
Qed.

Lemma loop_pages_trimmed (pages : list json) (acc recs : list FieldRecord) :
  loop_pages pages acc = Ok recs →
  Forall trimmed_record acc → Forall trimmed_record recs.
Proof.
  revert acc. induction pages as [|page pages IH]; intros acc H Hacc.
  - injection H as <-. exact Hacc.
  - cbn [loop_pages] in H.
    destruct (keys_exists page ["formFields"]) as [e|[]]; cbn [rbind] in H;
      [discriminate| |].
    + destruct (Json.getitem page "formFields") as [e|ff]; cbn [rbind] in H;
        [discriminate|].
      destruct (Json.iter ff) as [e|fields]; cbn [rbind] in H; [discriminate|].
      destruct (loop_fields fields acc) as [e|objs] eqn:Hf; cbn [rbind] in H;
        [discriminate|].
      apply (IH _ H). exact (loop_fields_trimmed _ _ _ Hf Hacc).
    + exact (IH _ H Hacc).
Qed.

Lemma flatten_document_trimmed (v : json) (acc recs : list FieldRecord) :
  flatten_document v acc = Ok recs →
  Forall trimmed_record acc → Forall trimmed_record recs.
Proof.
  unfold flatten_document.
  destruct (Json.getitem v "pages") as [e|pv]; cbn [rbind]; [discriminate|].
  destruct (Json.iter pv) as [e|pages]; cbn [rbind]; [discriminate|].
  apply loop_pages_trimmed.
Qed.

Lemma loop_blobs_trimmed (w : Env) (blobs : list Blob)
  (acc recs : list FieldRecord) (tr tr' : list call) :
  loop_blobs w blobs acc tr = (tr', Ok recs) →
  Forall trimmed_record acc → Forall trimmed_record recs.
Proof.
  revert acc tr. induction blobs as [|blob blobs IH]; intros acc tr H Hacc.
  - injection H as _ <-. exact Hacc.
  - cbn [loop_blobs] in H. unfold bind at 1 in H.
    destruct (blob_step w blob acc tr) as [tr1 [e|objs]] eqn:Hstep; [discriminate|].
    apply (IH _ _ H).
    unfold blob_step in Hstep. destruct (PyStr.contains ".json" (blob_name blob)).
    + unfold bind, service, lift in Hstep.
      destruct (download_as_string blob) as [e|data]; [discriminate|].
      destruct (json_loads w data) as [e|v]; [discriminate|].
      injection Hstep as _ Hflat.
      exact (flatten_document_trimmed _ _ _ Hflat Hacc).
    + injection Hstep as _ <-. exact Hacc.
Qed.

End Trimmed.

(** X3.  Every record the fetcher returns is normalized: none of its four
    texts holds a newline, and none starts or ends with whitespace. *)
Theorem fetched_records_are_trimmed
  (w : Env) (output_bucket output_directory : string)
  (tr : list call) (recs : list FieldRecord) :
  run (get_document_json_from_gcs w output_bucket output_directory) = (tr, Ok recs) →
  Forall trimmed_record recs.
Proof.
  unfold run, get_document_json_from_gcs, bind, service.
  destruct (list_blobs w output_bucket output_directory) as [e|blobs];
    [discriminate|].
  intros H. apply (loop_blobs_trimmed _ _ _ _ _ _ H). constructor.
Qed.

Lemma fetched_records_are_trimmed_witness : Forall trimmed_record [total_record].
Proof.
  apply (fetched_records_are_trimmed (scenario_env operation_123) "bucket" "out/123"
           [ListBlobs "bucket" "out/123"; DownloadAsString "out/123/invoice-0.json"]).
  vm_compute. reflexivity.
Defined.

(** X4.  [trim_text] is idempotent, and the texts it leaves unchanged are
    exactly those with no newline and no whitespace at either end. *)
Theorem trim_text_idempotent (text : string) :
  trim_text (trim_text text) = trim_text text
  ∧ (trim_text text = text ↔ trimmed text).
Proof.
  split.
  - apply trim_text_fixed, trim_text_trimmed.
  - split.
    + intros H. rewrite <- H. apply trim_text_trimmed.
    + apply trim_text_fixed.
Qed.

(** * The listing *)

Section Listing.

Lemma bind_ext {A B : Type} (m m' : M A) (k k' : A → M B) (tr : list call) :
  m tr = m' tr → (∀ a tr1, k a tr1 = k' a tr1) → bind m k tr = bind m' k' tr.
Proof.
  intros Hm Hk. unfold bind. rewrite Hm.
  destruct (m' tr) as [tr1 [e|a]]; [reflexivity | apply Hk].
Qed.

Lemma loop_blobs_filter (w w' : Env) (blobs : list Blob)
  (acc : list FieldRecord) (tr : list call) :
  json_loads w' = json_loads w →
  loop_blobs w blobs acc tr = loop_blobs w' (List.filter is_json_blob blobs) acc tr.
Proof.
  intros Hloads. revert acc tr.
  induction blobs as [|blob blobs IH]; intros acc tr; [reflexivity|].
  cbn [List.filter]. unfold is_json_blob at 1.
  destruct (PyStr.contains ".json" (blob_name blob)) eqn:Hname.
  - cbn [loop_blobs]. apply bind_ext; [|exact IH].
    unfold blob_step. rewrite Hloads. reflexivity.
  - cbn [loop_blobs]. unfold bind at 1. unfold blob_step. rewrite Hname.
    unfold ret. apply IH.
Qed.

(** A fetch that succeeds has downloaded the [.json] objects, in the
    order of the listing, and returns what was collected before followed
    by the records of each document in turn. *)
Lemma loop_blobs_ok (w : Env) (blobs : list Blob)
  (acc recs : list FieldRecord) (tr tr' : list call) :
  loop_blobs w blobs acc tr = (tr', Ok recs) →
  tr' = tr ++ map (λ blob, DownloadAsString (blob_name blob))
                  (List.filter is_json_blob blobs)
  ∧ ∃ parts,
      Forall2 (λ blob part,
                 ∃ data v, download_as_string blob = Ok data
                           ∧ json_loads w data = Ok v
                           ∧ flatten_document v [] = Ok part)
              (List.filter is_json_blob blobs) parts
      ∧ recs = acc ++ concat parts.
Proof.
  revert acc tr. induction blobs as [|blob blobs IH]; intros acc tr H.
  - injection H as <- <-. cbn. rewrite !app_nil_r. split; [reflexivity|].
    exists []. split; [constructor | cbn [concat]; rewrite app_nil_r; reflexivity].
  - cbn [loop_blobs] in H. unfold bind at 1 in H. unfold blob_step in H.
    cbn [List.filter].
    destruct (is_json_blob blob) eqn:Hname; unfold is_json_blob in Hname;
      rewrite Hname in H.
    + unfold bind, service, lift in H.
      destruct (download_as_string blob) as [e|data] eqn:Hdown; [discriminate H|].
      destruct (json_loads w data) as [e|v] eqn:Hparse; [discriminate H|].
      rewrite flatten_document_acc in H.
      destruct (flatten_document v []) as [e|part] eqn:Hflat; cbn [rbind] in H;
        [discriminate H|].
      destruct (IH _ _ H) as (Htr & parts & Hparts & Hrecs).
      split.
      * rewrite Htr. cbn [map]. rewrite <- app_assoc. reflexivity.
      * exists (part :: parts). split.
        -- constructor; [|exact Hparts]. exists data, v. auto.
        -- rewrite Hrecs. cbn [concat]. rewrite <- app_assoc. reflexivity.
    + unfold ret in H. exact (IH _ _ H).
Qed.

Lemma loop_protos_ok (from_json : string → result Document) (blobs : list Blob)
  (acc docs : list Document) (tr tr' : list call) :
  loop_protos from_json blobs acc tr = (tr', Ok docs) →
  tr' = tr ++ map (λ blob, DownloadAsString (blob_name blob))
                  (List.filter is_json_blob blobs)
  ∧ ∃ new,
      Forall2 (λ blob doc,
                 ∃ data, download_as_string blob = Ok data
                         ∧ from_json data = Ok doc)
              (List.filter is_json_blob blobs) new
      ∧ docs = acc ++ new.
Proof.
  revert acc tr. induction blobs as [|blob blobs IH]; intros acc tr H.
  - injection H as <- <-. cbn. rewrite !app_nil_r. split; [reflexivity|].
    exists []. split; [constructor | cbn [concat]; rewrite app_nil_r; reflexivity].
  - cbn [loop_protos] in H. unfold bind at 1 in H. unfold proto_step in H.
    cbn [List.filter].
    destruct (is_json_blob blob) eqn:Hname; unfold is_json_blob in Hname;
      rewrite Hname in H.
    + unfold bind, service, lift, ret in H.
      destruct (download_as_string blob) as [e|data] eqn:Hdown; [discriminate H|].
      destruct (from_json data) as [e|doc] eqn:Hparse; [discriminate H|].
      destruct (IH _ _ H) as (Htr & new & Hnew & Hdocs).
      split.
      * rewrite Htr. cbn [map]. rewrite <- app_assoc. reflexivity.
      * exists (doc :: new). split.
        -- constructor; [|exact Hnew]. exists data. auto.
        -- rewrite Hdocs. rewrite <- app_assoc. reflexivity.
    + unfold ret in H. exact (IH _ _ H).
Qed.

End Listing.

(** X5.  Listed objects whose name does not contain [.json] are never
    downloaded and change nothing: the fetcher makes the same calls and
    ends the same way as on the listing with those objects removed. *)
Theorem non_json_objects_are_skipped
  (w : Env) (output_bucket output_directory : string) (blobs : list Blob) :
  list_blobs w output_bucket output_directory = Ok blobs →
  run (get_document_json_from_gcs w output_bucket output_directory)
  = run (get_document_json_from_gcs
           (with_listing w (List.filter is_json_blob blobs))
           output_bucket output_directory).
Proof.
  intros Hlist. unfold run, get_document_json_from_gcs, bind, service.
  rewrite Hlist. cbn [list_blobs with_listing app].
  rewrite (loop_blobs_filter w (with_listing w (List.filter is_json_blob blobs)))
    by reflexivity.
  rewrite (loop_blobs_filter (with_listing w (List.filter is_json_blob blobs))
             (with_listing w (List.filter is_json_blob blobs))
             (List.filter is_json_blob blobs)) by reflexivity.
  reflexivity.
Qed.

Lemma non_json_objects_are_skipped_witness :
  run (get_document_json_from_gcs env_txt_json "bucket" "out/123")
  = ([ListBlobs "bucket" "out/123"; DownloadAsString "out/123/invoice-0.json"],
     Ok [total_record]).
Proof.
  rewrite (non_json_objects_are_skipped env_txt_json "bucket" "out/123"
             listing_txt_json eq_refl).
  vm_compute. reflexivity.
Defined.

(** X6.  When the fetcher returns, the calls it made are the listing and
    then one download for each listed object whose name contains [.json],
    in the order of the listing; every one of these objects was downloaded,
    parsed and flattened without an exception; and the result is the
    records of the first document, then those of the second, and so on. *)
Theorem fetch_concatenates_documents
  (w : Env) (output_bucket output_directory : string) (blobs : list Blob)
  (tr : list call) (recs : list FieldRecord) :
  list_blobs w output_bucket output_directory = Ok blobs →
  run (get_document_json_from_gcs w output_bucket output_directory) = (tr, Ok recs) →
  tr = ListBlobs output_bucket output_directory
       :: map (λ blob, DownloadAsString (blob_name blob))
              (List.filter is_json_blob blobs)
  ∧ ∃ parts,
      Forall2 (λ blob part,
                 ∃ data v, download_as_string blob = Ok data
                           ∧ json_loads w data = Ok v
                           ∧ flatten_document v [] = Ok part)
              (List.filter is_json_blob blobs) parts
      ∧ recs = concat parts.
Proof.
  intros Hlist. unfold run, get_document_json_from_gcs, bind, service.
  rewrite Hlist. cbn [app]. intros H.
  destruct (loop_blobs_ok _ _ _ _ _ _ H) as (Htr & parts & Hparts & Hrecs).
  split; [exact Htr|]. exists parts. split; [exact Hparts | exact Hrecs].
Qed.

Lemma fetch_concatenates_documents_witness :
  [ListBlobs "bucket" "out/123"; DownloadAsString "out/123/invoice-0.json"]
  = ListBlobs "bucket" "out/123"
    :: map (λ blob, DownloadAsString (blob_name blob))
         (List.filter is_json_blob listing_txt_json)
  ∧ ∃ parts,
      Forall2 (λ blob part,
                 ∃ data v, download_as_string blob = Ok data
                           ∧ json_loads env_txt_json data = Ok v
                           ∧ flatten_document v [] = Ok part)
              (List.filter is_json_blob listing_txt_json) parts
      ∧ [total_record] = concat parts.
Proof.
  apply (fetch_concatenates_documents env_txt_json "bucket" "out/123"
           listing_txt_json).
  - reflexivity.
  - vm_compute. reflexivity.
Defined.

(** X7.  When [get_document_protos_from_gcs] returns, it has listed the
    directory and downloaded exactly the objects whose name contains
    [.json], in order, and it returns one parsed document for each of
    them, in the same order; the other objects are skipped. *)
Theorem protos_one_per_json_object
  (w : Env) (from_json : string → result Document)
  (output_bucket output_directory : string) (blobs : list Blob)
  (tr : list call) (docs : list Document) :
  list_blobs w output_bucket output_directory = Ok blobs →
  run (get_document_protos_from_gcs w from_json output_bucket output_directory)
  = (tr, Ok docs) →
  tr = ListBlobs output_bucket output_directory
       :: map (λ blob, DownloadAsString (blob_name blob))
              (List.filter is_json_blob blobs)
  ∧ Forall2 (λ blob doc,
               ∃ data, download_as_string blob = Ok data ∧ from_json data = Ok doc)
            (List.filter is_json_blob blobs) docs.
Proof.
  intros Hlist. unfold run, get_document_protos_from_gcs, bind, service.
  rewrite Hlist. cbn [app]. intros H.
  destruct (loop_protos_ok _ _ _ _ _ _ H) as (Htr & new & Hnew & Hdocs).
  split; [exact Htr|]. rewrite Hdocs. exact Hnew.
Qed.

Lemma protos_one_per_json_object_witness :
  [ListBlobs "bucket" "out/123"; DownloadAsString "out/123/invoice-0.json"]
  = ListBlobs "bucket" "out/123"
    :: map (λ blob, DownloadAsString (blob_name blob))
         (List.filter is_json_blob listing_txt_json)
  ∧ Forall2 (λ blob doc,
               ∃ data, download_as_string blob = Ok data
                       ∧ from_json_any data = Ok doc)
            (List.filter is_json_blob listing_txt_json) [mkDocument []].
Proof.
  apply (protos_one_per_json_object env_txt_json from_json_any "bucket" "out/123"
           listing_txt_json).
  - reflexivity.
  - vm_compute. reflexivity.
Defined.

(** * More on the probe and on the handler *)


(** X8.  [keys_exists] answers [True] exactly when its first argument is
    a dictionary, at least one key is given, and the nested subscripts
    [element[k1][k2]...] all succeed; so after a [True] answer the same
    subscripts cannot raise. *)
Theorem keys_exists_true_iff (element : json) (keys : list string) :
  keys_exists element keys = Ok true
  ↔ Json.is_dict element = true ∧ keys ≠ [] ∧ ∃ x, getpath element keys = Ok x.
Proof.
  unfold keys_exists. split.
  - destruct (Json.is_dict element); [|discriminate].
    destruct keys as [|k keys]; [discriminate|].
    intros H. repeat split; [discriminate|].
    apply keys_exists_loop_true. exact H.
  - intros (Hd & Hk & Hx). rewrite Hd.
    destruct keys as [|k keys]; [congruence|].
    apply keys_exists_loop_true. exact Hx.
Qed.

(** X9.  For an entry that passes the four checks of line 205, the four
    nested subscripts of lines 206 to 209 succeed, and building the record
    can fail in one way only: [trim_text] raises [AttributeError] when a
    content is not a string.  When both contents are strings the record
    holds their trimmed texts and the trimmed [str] of the confidences. *)
Theorem accepted_entry_record (field : json) :
  field_complete field = Ok true →
  ∃ c1 cn c3 cv,
    getpath field name_content = Ok c1
    ∧ getpath field name_confidence = Ok cn
    ∧ getpath field value_content = Ok c3
    ∧ getpath field value_confidence = Ok cv
    ∧ field_item field
      = match c1, c3 with
        | JStr n, JStr v =>
            Ok (mkFieldRecord (trim_text n) (trim_text (Json.str cn))
                  (trim_text v) (trim_text (Json.str cv)))
        | _, _ => Raise AttributeError
        end.
Proof.
  unfold field_complete. intros H.
  apply and_then_true in H as [H1 H].
  apply and_then_true in H as [H2 H].
  apply and_then_true in H as [H3 H4].
  destruct (keys_exists_true_getpath _ _ H1) as (c1 & Hc1).
  destruct (keys_exists_true_getpath _ _ H2) as (cn & Hcn).
  destruct (keys_exists_true_getpath _ _ H3) as (c3 & Hc3).
  destruct (keys_exists_true_getpath _ _ H4) as (cv & Hcv).
  exists c1, cn, c3, cv. repeat split; try assumption.
  unfold field_item. rewrite Hc1, Hcn, Hc3, Hcv.
  destruct c1, c3; reflexivity.
Qed.

Lemma accepted_entry_record_witness :
  ∃ c1 cn c3 cv,
    getpath entry_content_is_number name_content = Ok c1
    ∧ getpath entry_content_is_number name_confidence = Ok cn
    ∧ getpath entry_content_is_number value_content = Ok c3
    ∧ getpath entry_content_is_number value_confidence = Ok cv
    ∧ field_item entry_content_is_number
      = match c1, c3 with
        | JStr n, JStr v =>
            Ok (mkFieldRecord (trim_text n) (trim_text (Json.str cn))
                  (trim_text v) (trim_text (Json.str cv)))
        | _, _ => Raise AttributeError
        end.
Proof. apply (accepted_entry_record entry_content_is_number). reflexivity. Defined.

Section Frame.

Lemma framed_ret {A : Type} (a : A) : framed (ret a).
Proof. intros tr. unfold ret. simpl. rewrite app_nil_r. reflexivity. Qed.

Lemma framed_lift {A : Type} (r : result A) : framed (lift r).
Proof. intros tr. unfold lift. simpl. rewrite app_nil_r. reflexivity. Qed.

Lemma framed_service {A : Type} (c : call) (r : result A) : framed (service c r).
Proof. intros tr. reflexivity. Qed.

Lemma framed_bind {A B : Type} (m : M A) (k : A → M B) :
  framed m → (∀ a, framed (k a)) → framed (bind m k).
Proof.
  intros Hm Hk tr. unfold bind. rewrite (Hm tr).
  destruct (m []) as [t1 [e|a]]; simpl.
  - reflexivity.
  - rewrite (Hk a (tr ++ t1)), (Hk a t1). simpl.
    rewrite app_assoc. reflexivity.
Qed.

Lemma framed_loop_blobs (w : Env) (blobs : list Blob) (acc : list FieldRecord) :
  framed (loop_blobs w blobs acc).
Proof.
  revert acc. induction blobs as [|blob blobs IH]; intros acc; cbn [loop_blobs].
  - apply framed_ret.
  - apply framed_bind; [|exact IH].
    unfold blob_step. destruct (PyStr.contains ".json" (blob_name blob)).
    + apply framed_bind; [apply framed_service|].
      intros s. apply framed_bind; [apply framed_lift|]. intros v. apply framed_lift.
    + apply framed_ret.
Qed.

Lemma framed_get_document_json_from_gcs (w : Env) (b d : string) :
  framed (get_document_json_from_gcs w b d).
Proof.
  unfold get_document_json_from_gcs.
  apply framed_bind; [apply framed_service|]. intros blobs. apply framed_loop_blobs.
Qed.

End Frame.

Section Runs.

Variables (w : Env) (b f m : string) (op : Operation) (ds : string).

Hypothesis bucket_given : PyStr.truthy b = true.
Hypothesis name_given : PyStr.truthy f = true.
Hypothesis type_accepted : m ∈ ACCEPTED_MIME_TYPES.

(** After validation the handler submits; a submission that raises ends
    the run, and so does a wait that raises. *)
Lemma process_invoice_submits :
  run (process_invoice w (mkEvent (Some b) (Some f) (Some m)))
  = match submit_answer w b f with
    | inl e => ([submit_call w b f], Raise e)
    | inr op' =>
        match operation_result op' (timeout w) with
        | inl e => ([submit_call w b f; wait_call w op'], Raise e)
        | inr _ => run (process_invoice w (mkEvent (Some b) (Some f) (Some m)))
        end
    end.
Proof.
  destruct (submit_answer w b f) as [e|op'] eqn:Hsub.
  - unfold process_invoice. cbn [bucket name contentType].
    rewrite bucket_given, name_given. cbn [negb orb not_accepted].
    rewrite bool_decide_eq_false_2 by (intros Hn; exact (Hn type_accepted)).
    unfold run, bind, lift, _batch_process_documents, service, concat_opt.
    cbn [app]. unfold submit_answer in Hsub. rewrite Hsub. reflexivity.
  - destruct (operation_result op' (timeout w)) as [e|[]] eqn:Hwait; [|reflexivity].
    unfold process_invoice. cbn [bucket name contentType].
    rewrite bucket_given, name_given. cbn [negb orb not_accepted].
    rewrite bool_decide_eq_false_2 by (intros Hn; exact (Hn type_accepted)).
    unfold run, bind, lift, _batch_process_documents, service, concat_opt.
    cbn [app]. unfold submit_answer in Hsub. rewrite Hsub.
    cbn [app]. rewrite Hwait. reflexivity.
Qed.

Hypothesis submitted : submit_answer w b f = Ok op.
Hypothesis waited : operation_result op (timeout w) = Ok tt.
Hypothesis identified : Re.search (operation_name op) = Some ds.

(** Once the identifier is known, the run is the fetch followed, when it
    returns, by the upload of what it returned. *)
Lemma process_invoice_fetches :
  run (process_invoice w (mkEvent (Some b) (Some f) (Some m)))
  = match run (get_document_json_from_gcs w b (output_directory_of w ds)) with
    | (tr1, inl e) => ([submit_call w b f; wait_call w op] ++ tr1, Raise e)
    | (tr1, inr recs) =>
        ([submit_call w b f; wait_call w op] ++ tr1 ++ [upload_call b f recs],
         match upload_answer w b f recs with
         | inl e => Raise e
         | inr _ => Ok tt
         end)
    end.
Proof.
  rewrite (process_invoice_after_wait w b f m op bucket_given name_given
             type_accepted submitted waited).
  rewrite identified. unfold fetch_and_publish, bind at 1.
  rewrite (framed_get_document_json_from_gcs w b (output_directory_of w ds)
             [submit_call w b f; wait_call w op]).
  unfold run.
  destruct (get_document_json_from_gcs w b (output_directory_of w ds) [])
    as [tr1 [e|recs]]; cbn [fst snd]; [reflexivity|].
  unfold create_json, upload_call, upload_answer. unfold bind, service, ret.
  rewrite <- app_assoc.
  destruct (upload_from_string w b (extract_filename_of f) (json_dumps recs)
              "application/json"); reflexivity.
Qed.

End Runs.

(** X10.  For an event that passes validation, a failure of Document AI
    ends the run at the failed call: when the submission raises, the run
    raises the same exception after that one call; when the submission
    succeeds and the wait raises (a timeout, say), the run raises the same
    exception after the submission and the wait.  In both cases nothing is
    listed, downloaded or uploaded. *)
Theorem document_ai_failure_ends_run (w : Env) (b f m : string) :
  PyStr.truthy b = true → PyStr.truthy f = true → m ∈ ACCEPTED_MIME_TYPES →
  (∀ e, submit_answer w b f = Raise e →
        run (process_invoice w (mkEvent (Some b) (Some f) (Some m)))
        = ([submit_call w b f], Raise e))
  ∧ (∀ op e, submit_answer w b f = Ok op →
             operation_result op (timeout w) = Raise e →
             run (process_invoice w (mkEvent (Some b) (Some f) (Some m)))
             = ([submit_call w b f; wait_call w op], Raise e)).
Proof.
  intros Hb Hf Hm. split.
  - intros e He. rewrite (process_invoice_submits w b f m Hb Hf Hm), He. reflexivity.
  - intros op e Hop He.
    rewrite (process_invoice_submits w b f m Hb Hf Hm), Hop, He. reflexivity.
Qed.

Lemma document_ai_failure_ends_run_witness :
  run (process_invoice (scenario_env operation_slow) invoice_event)
  = ([submit_call (scenario_env operation_slow) "bucket" "invoice.pdf";
      wait_call (scenario_env operation_slow) operation_slow],
     Raise (ExternalError "TimeoutError")).
Proof.
  refine (proj2 (document_ai_failure_ends_run (scenario_env operation_slow)
                   "bucket" "invoice.pdf" "application/pdf" _ _ _)
            operation_slow (ExternalError "TimeoutError") _ _);
    reflexivity.
Defined.

(** X11.  In an invocation that has reached the fetch, any exception of
    the fetcher (a listing or download that fails, content that does not
    parse, a document it cannot flatten) ends the run with that exception
    after the calls of the fetcher, and no upload is made: nothing partial
    is published. *)
Theorem failed_fetch_publishes_nothing
  (w : Env) (b f m : string) (op : Operation) (ds : string)
  (tr1 : list call) (e : exn) :
  PyStr.truthy b = true → PyStr.truthy f = true → m ∈ ACCEPTED_MIME_TYPES →
  submit_answer w b f = Ok op →
  operation_result op (timeout w) = Ok tt →
  Re.search (operation_name op) = Some ds →
  run (get_document_json_from_gcs w b (output_directory_of w ds)) = (tr1, Raise e) →
  run (process_invoice w (mkEvent (Some b) (Some f) (Some m)))
  = ([submit_call w b f; wait_call w op] ++ tr1, Raise e)
  ∧ uploads ([submit_call w b f; wait_call w op] ++ tr1) = [].
Proof.
  intros Hb Hf Hm Hsub Hwait Hid Hfetch.
  rewrite (process_invoice_fetches w b f m op ds Hb Hf Hm Hsub Hwait Hid), Hfetch.
  split; [reflexivity|].
  destruct (quiet_get_document_json_from_gcs w b (output_directory_of w ds) [])
    as (ext & Hext & Hq).
  unfold run in Hfetch. rewrite Hfetch in Hext. cbn [fst app] in Hext. subst tr1.
  unfold uploads in *. rewrite List.filter_app, Hq. reflexivity.
Qed.

Lemma failed_fetch_publishes_nothing_witness :
  run (process_invoice env_with_bad_document invoice_event)
  = ([submit_call env_with_bad_document "bucket" "invoice.pdf";
      wait_call env_with_bad_document operation_123]
     ++ [ListBlobs "bucket" "out/123"; DownloadAsString "out/123/invoice-0.json";
         DownloadAsString "out/123/invoice-1.json"],
     Raise KeyError)
  ∧ uploads ([submit_call env_with_bad_document "bucket" "invoice.pdf";
              wait_call env_with_bad_document operation_123]
             ++ [ListBlobs "bucket" "out/123";
                 DownloadAsString "out/123/invoice-0.json";
                 DownloadAsString "out/123/invoice-1.json"]) = [].
Proof.
  refine (failed_fetch_publishes_nothing env_with_bad_document
            "bucket" "invoice.pdf" "application/pdf" operation_123 "123"
            _ KeyError _ _ _ _ _ _ _);
    try reflexivity; vm_compute; reflexivity.
Defined.

(** X12.  In an invocation that has reached the fetch and whose fetch
    returns, the handler makes exactly one more call: it uploads the JSON
    text of the records the fetcher returned, as [application/json], to
    ["extractedjson/" + name + ".json"] in the bucket of the event; the
    run returns when the upload does and raises what the upload raises. *)
Theorem fetched_records_are_published
  (w : Env) (b f m : string) (op : Operation) (ds : string)
  (tr1 : list call) (recs : list FieldRecord) :
  PyStr.truthy b = true → PyStr.truthy f = true → m ∈ ACCEPTED_MIME_TYPES →
  submit_answer w b f = Ok op →
  operation_result op (timeout w) = Ok tt →
  Re.search (operation_name op) = Some ds →
  run (get_document_json_from_gcs w b (output_directory_of w ds)) = (tr1, Ok recs) →
  run (process_invoice w (mkEvent (Some b) (Some f) (Some m)))
  = ([submit_call w b f; wait_call w op] ++ tr1
     ++ [UploadFromString b ("extractedjson/" +:+ f +:+ ".json") (json_dumps recs)
           "application/json"],
     match upload_from_string w b ("extractedjson/" +:+ f +:+ ".json")
             (json_dumps recs) "application/json" with
     | inl e => Raise e
     | inr _ => Ok tt
     end).
Proof.
  intros Hb Hf Hm Hsub Hwait Hid Hfetch.
  rewrite (process_invoice_fetches w b f m op ds Hb Hf Hm Hsub Hwait Hid), Hfetch.
  reflexivity.
Qed.

Lemma fetched_records_are_published_witness :
  run (process_invoice (scenario_env operation_123) invoice_event)
  = ([submit_call (scenario_env operation_123) "bucket" "invoice.pdf";
      wait_call (scenario_env operation_123) operation_123]
     ++ [ListBlobs "bucket" "out/123"; DownloadAsString "out/123/invoice-0.json"]
     ++ [UploadFromString "bucket" ("extractedjson/" +:+ "invoice.pdf" +:+ ".json")
           (json_dumps [total_record]) "application/json"],
     Ok tt).
Proof.
  refine (fetched_records_are_published (scenario_env operation_123)
            "bucket" "invoice.pdf" "application/pdf" operation_123 "123"
            _ [total_record] _ _ _ _ _ _ _);
    try reflexivity; vm_compute; reflexivity.
Defined.

(** X13.  When the output directory of the job lists no object whose name
    contains [.json] (an empty directory included), the handler downloads
    nothing and still publishes: it uploads the text ["[]"]. *)
Theorem empty_directory_publishes_empty_list
  (w : Env) (b f m : string) (op : Operation) (ds : string) (blobs : list Blob) :
  PyStr.truthy b = true → PyStr.truthy f = true → m ∈ ACCEPTED_MIME_TYPES →
  submit_answer w b f = Ok op →
  operation_result op (timeout w) = Ok tt →
  Re.search (operation_name op) = Some ds →
  list_blobs w b (output_directory_of w ds) = Ok blobs →
  List.filter is_json_blob blobs = [] →
  upload_from_string w b ("extractedjson/" +:+ f +:+ ".json") "[]" "application/json"
  = Ok tt →
  run (process_invoice w (mkEvent (Some b) (Some f) (Some m)))
  = ([submit_call w b f; wait_call w op; ListBlobs b (output_directory_of w ds);
      UploadFromString b ("extractedjson/" +:+ f +:+ ".json") "[]" "application/json"],
     Ok tt).
Proof.
  intros Hb Hf Hm Hsub Hwait Hid Hlist Hnone Hup.
  rewrite (process_invoice_fetches w b f m op ds Hb Hf Hm Hsub Hwait Hid).
  assert (Hfetch : run (get_document_json_from_gcs w b (output_directory_of w ds))
                   = ([ListBlobs b (output_directory_of w ds)], Ok [])).
  { unfold run, get_document_json_from_gcs, bind, service. rewrite Hlist.
    rewrite (loop_blobs_filter w w blobs) by reflexivity.
    rewrite Hnone. reflexivity. }
  rewrite Hfetch. unfold upload_answer, upload_call, extract_filename_of.
  change (json_dumps []) with "[]". rewrite Hup. reflexivity.
Qed.

Lemma empty_directory_publishes_empty_list_witness :
  run (process_invoice env_empty_directory invoice_event)
  = ([submit_call env_empty_directory "bucket" "invoice.pdf";
      wait_call env_empty_directory operation_123;
      ListBlobs "bucket" (output_directory_of env_empty_directory "123");
      UploadFromString "bucket" ("extractedjson/" +:+ "invoice.pdf" +:+ ".json")
        "[]" "application/json"],
     Ok tt).
Proof.
  refine (empty_directory_publishes_empty_list env_empty_directory
            "bucket" "invoice.pdf" "application/pdf" operation_123 "123" []
            _ _ _ _ _ _ _ _ _);
    reflexivity.
Defined.

(** * The published text and the identifier *)

Section Ascii.

Lemma all_chars_append (p : ascii → bool) (a b : string) :
  all_chars p (a +:+ b) = all_chars p a && all_chars p b.
Proof.
  induction a as [|c a IH]; [reflexivity|]. simpl. rewrite IH.
  apply andb_assoc.
Qed.

Lemma dumps_char_ascii (c : ascii) :
  all_chars is_printable_ascii (Json.dumps_char c) = true.
Proof.
  destruct c as [[] [] [] [] [] [] [] []]; vm_compute; reflexivity.
Qed.

Lemma dumps_str_ascii (s : string) :
  all_chars is_printable_ascii (Json.dumps_str s) = true.
Proof.
  unfold Json.dumps_str. rewrite !all_chars_append.
  assert (H : all_chars is_printable_ascii (Json.dumps_chars s) = true).
  { induction s as [|c s IH]; [reflexivity|]. simpl.
    rewrite all_chars_append, dumps_char_ascii, IH. reflexivity. }
  rewrite H. reflexivity.
Qed.

Lemma dumps_record_ascii (r : FieldRecord) :
  all_chars is_printable_ascii (dumps_record r) = true.
Proof.
  unfold dumps_record. rewrite !all_chars_append, !dumps_str_ascii. reflexivity.
Qed.

Lemma join_ascii (sep : string) (l : list string) :
  all_chars is_printable_ascii sep = true →
  Forall (λ s, all_chars is_printable_ascii s = true) l →
  all_chars is_printable_ascii (PyStr.join sep l) = true.
Proof.
  intros Hsep Hl. induction Hl as [|x l Hx Hl IH]; [reflexivity|].
  cbn [PyStr.join]. destruct l as [|y l]; [exact Hx|].
  rewrite !all_chars_append, Hx, Hsep, IH. reflexivity.
Qed.

End Ascii.

(** X14.  The text [create_json] uploads for a list of records is made
    of printable ASCII characters only (U+0020 to U+007E), whatever the
    records hold: every other character of a field is escaped, so the text
    has no line break and no character above U+007E. *)
Theorem published_text_is_ascii (json_object : list FieldRecord) :
  all_chars is_printable_ascii (json_dumps json_object) = true.
Proof.
  unfold json_dumps. rewrite !all_chars_append.
  rewrite join_ascii; [reflexivity | reflexivity |].
  apply Forall_forall. intros s Hs.
  apply list_elem_of_In, in_map_iff in Hs as (r & <- & _).
  apply dumps_record_ascii.
Qed.

(** X15.  An identifier that [re.search] extracts from an operation name
    is never empty and holds decimal digits only; it stands in the name
    right after a text equal to [operations/] up to the case of its
    letters. *)
Theorem extracted_identifier_is_digits (operation_name ds : string) :
  Re.search operation_name = Some ds →
  ds ≠ EmptyString
  ∧ all_chars PyStr.is_digit ds = true
  ∧ ∃ before lit after,
      operation_name = before +:+ lit +:+ ds +:+ after
      ∧ same_nocase lit "operations/" = true.
Proof.
  intros H. apply search_first_match in H as (before & t & -> & Hat & _).
  destruct Hat as (lit & after & -> & Hlit & Hne & Hall & _).
  repeat split; try assumption. exists before, lit, after. split; [reflexivity|].
  exact Hlit.
Qed.

Lemma extracted_identifier_is_digits_witness :
  "123" ≠ EmptyString
  ∧ all_chars PyStr.is_digit "123" = true
  ∧ ∃ before lit after,
      "projects/1/locations/us/operations/123" = before +:+ lit +:+ "123" +:+ after
      ∧ same_nocase lit "operations/" = true.
Proof.
  apply (extracted_identifier_is_digits "projects/1/locations/us/operations/123" "123").
  reflexivity.
Defined.

(** * More on the alternate flattener *)

Section Entities.

Local Abbreviation step := (λ (d : gmap string EntityValue) (e : Entity),
                              extract_document_entity e d).

Lemma extract_visited_from (entities : list Entity) (d : gmap string EntityValue) :
  fold_left (λ d entity,
               loop_properties (properties entity) (extract_document_entity entity d))
    entities d
  = fold_left step (Spec2.visited entities) d.
Proof.
  revert d. induction entities as [|e entities IH]; intros d; [reflexivity|].
  unfold Spec2.visited. cbn [map concat fold_left].
  rewrite List.fold_left_app. cbn [fold_left]. rewrite IH. reflexivity.
Qed.

(** The dictionary is built by one pass over the visited entities. *)
Lemma extract_visited (entities : list Entity) :
  extract_document_entities entities = fold_left step (Spec2.visited entities) ∅.
Proof. apply extract_visited_from. Qed.

Lemma step_is_some (e : Entity) (d : gmap string EntityValue) (key : string) :
  is_Some (extract_document_entity e d !! key)
  ↔ entity_key e = key ∨ is_Some (d !! key).
Proof.
  destruct (decide (entity_key e = key)) as [<- | Hne].
  - split; [intros _; left; reflexivity | intros _].
    unfold extract_document_entity.
    destruct (d !! entity_key e) as [existing|];
      [destruct (value_truthy existing)|];
      rewrite lookup_insert_eq; eexists; reflexivity.
  - assert (Hsame : extract_document_entity e d !! key = d !! key).
    { unfold extract_document_entity.
      destruct (d !! entity_key e) as [existing|];
        [destruct (value_truthy existing)|];
        apply lookup_insert_ne; exact Hne. }
    rewrite Hsame. split; [intros H; right; exact H|].
    intros [H | H]; [contradiction | exact H].
Qed.

Lemma fold_is_some (es : list Entity) (d : gmap string EntityValue) (key : string) :
  is_Some (fold_left step es d !! key)
  ↔ is_Some (d !! key) ∨ ∃ e, e ∈ es ∧ entity_key e = key.
Proof.
  revert d. induction es as [|e es IH]; intros d; cbn [fold_left].
  - split; [auto|]. intros [H | (e & He & _)]; [exact H|].
    apply elem_of_nil in He. destruct He.
  - rewrite IH, step_is_some. split.
    + intros [[H | H] | (e' & He' & Hk)].
      * right. exists e. split; [apply list_elem_of_here | exact H].
      * left. exact H.
      * right. exists e'. split; [apply list_elem_of_further; exact He' | exact Hk].
    + intros [H | (e' & He' & Hk)].
      * left. right. exact H.
      * apply elem_of_cons in He' as [-> | He'].
        -- left. left. exact Hk.
        -- right. exists e'. split; assumption.
Qed.

(** Stored lists come from a promotion and only grow. *)
Lemma step_many (e : Entity) (d : gmap string EntityValue) :
  (∀ key l, d !! key = Some (Many l) → (2 <= length l)%nat) →
  ∀ key l, extract_document_entity e d !! key = Some (Many l) → (2 <= length l)%nat.
Proof.
  intros Hd key l.
  destruct (decide (entity_key e = key)) as [<- | Hne].
  - unfold extract_document_entity.
    destruct (d !! entity_key e) as [existing|] eqn:He;
      [destruct (value_truthy existing)|];
      rewrite lookup_insert_eq; intros [= <-].
    rewrite length_app. cbn [length].
    destruct existing as [s|l0]; cbn [as_list length]; [lia|].
    pose proof (Hd _ _ He). lia.
  - assert (Hsame : extract_document_entity e d !! key = d !! key).
    { unfold extract_document_entity.
      destruct (d !! entity_key e) as [existing|];
        [destruct (value_truthy existing)|];
        apply lookup_insert_ne; exact Hne. }
    rewrite Hsame. apply Hd.
Qed.

Lemma fold_many (es : list Entity) (d : gmap string EntityValue) :
  (∀ key l, d !! key = Some (Many l) → (2 <= length l)%nat) →
  ∀ key l, fold_left step es d !! key = Some (Many l) → (2 <= length l)%nat.
Proof.
  revert d. induction es as [|e es IH]; intros d Hd; cbn [fold_left]; [exact Hd|].
  apply IH. apply step_many. exact Hd.
Qed.

Lemma values_of_app (key : string) (es es' : list Entity) :
  Spec2.values_of key (es ++ es') = Spec2.values_of key es ++ Spec2.values_of key es'.
Proof. unfold Spec2.values_of. rewrite List.filter_app, map_app. reflexivity. Qed.

Lemma values_of_nonempty (key : string) (es : list Entity) (v : string) :
  Forall (λ e, new_entity_value e ≠ EmptyString) es →
  v ∈ Spec2.values_of key es → v ≠ EmptyString.
Proof.
  intros Hall Hv. unfold Spec2.values_of in Hv.
  apply list_elem_of_In, in_map_iff in Hv as (e & <- & He).
  apply List.filter_In in He as [He _].
  rewrite Forall_forall in Hall. apply Hall, list_elem_of_In. exact He.
Qed.

Lemma truthy_nonempty (s : string) : s ≠ EmptyString → PyStr.truthy s = true.
Proof. destruct s; [congruence | reflexivity]. Qed.

(** One more entity with a non-empty value: its value joins those of its
    key; the other keys are untouched. *)
Lemma step_values (seen : list Entity) (e : Entity) (d : gmap string EntityValue) :
  Forall (λ e, new_entity_value e ≠ EmptyString) seen →
  (∀ key, d !! key = Spec2.pack (Spec2.values_of key seen)) →
  ∀ key, extract_document_entity e d !! key
         = Spec2.pack (Spec2.values_of key (seen ++ [e])).
Proof.
  intros Hseen Hd key. rewrite values_of_app.
  unfold Spec2.values_of at 2. cbn [List.filter].
  unfold extract_document_entity. rewrite (Hd (entity_key e)).
  destruct (String.eqb_spec (entity_key e) key) as [<- | Hne].
  - cbn [map].
    destruct (Spec2.values_of (entity_key e) seen) as [|x [|y vs]] eqn:Hvs;
      cbn [Spec2.pack].
    + rewrite lookup_insert_eq. reflexivity.
    + assert (Hx : x ≠ EmptyString).
      { apply (values_of_nonempty (entity_key e) seen); [exact Hseen|].
        rewrite Hvs. apply list_elem_of_here. }
      cbn [value_truthy]. rewrite (truthy_nonempty x Hx).
      rewrite lookup_insert_eq. reflexivity.
    + cbn [value_truthy]. rewrite lookup_insert_eq. reflexivity.
  - cbn [map]. rewrite app_nil_r.
    destruct (Spec2.pack (Spec2.values_of (entity_key e) seen)) as [existing|];
      [destruct (value_truthy existing)|];
      rewrite lookup_insert_ne by exact Hne; apply Hd.
Qed.

Lemma fold_values (es seen : list Entity) (d : gmap string EntityValue) :
  Forall (λ e, new_entity_value e ≠ EmptyString) (seen ++ es) →
  (∀ key, d !! key = Spec2.pack (Spec2.values_of key seen)) →
  ∀ key, fold_left step es d !! key = Spec2.pack (Spec2.values_of key (seen ++ es)).
Proof.
  revert seen d. induction es as [|e es IH]; intros seen d Hall Hd key;
    cbn [fold_left].
  - rewrite app_nil_r. apply Hd.
  - replace (seen ++ e :: es) with ((seen ++ [e]) ++ es)
      by (rewrite <- app_assoc; reflexivity).
    apply IH.
    + rewrite <- app_assoc. exact Hall.
    + apply step_values; [|exact Hd].
      apply Forall_app in Hall as [Hs _]. exact Hs.
Qed.

Lemma step_without_properties (p : Entity) (d : gmap string EntityValue) :
  extract_document_entity (without_properties p) d = extract_document_entity p d.
Proof. destruct p. reflexivity. Qed.

Lemma loop_properties_without (ps : list Entity) (d : gmap string EntityValue) :
  loop_properties (map without_properties ps) d = loop_properties ps d.
Proof.
  unfold loop_properties. revert d.
  induction ps as [|p ps IH]; intros d; [reflexivity|].
  cbn [map fold_left]. rewrite step_without_properties. apply IH.
Qed.

End Entities.

(** X16.  The keys of the dictionary [extract_document_entities] returns
    are exactly the types of the entities it visits (each entity and each
    of its properties) with every [/] replaced by [_]; so no key holds a
    [/]. *)
Theorem entity_keys_are_visited_types (entities : list Entity) (key : string) :
  (is_Some (extract_document_entities entities !! key)
   ↔ ∃ e, e ∈ Spec2.visited entities
          ∧ key = PyStr.replace "/" "_" (type_ e))
  ∧ (is_Some (extract_document_entities entities !! key) →
     all_chars (λ c, negb (Ascii.eqb c "/")) key = true).
Proof.
  assert (Hiff : is_Some (extract_document_entities entities !! key)
                 ↔ ∃ e, e ∈ Spec2.visited entities
                        ∧ key = PyStr.replace "/" "_" (type_ e)).
  { rewrite extract_visited, fold_is_some. rewrite lookup_empty. split.
    - intros [H | (e & He & Hk)]; [destruct H as [x Hx]; discriminate Hx|].
      exists e. split; [exact He | symmetry; exact Hk].
    - intros (e & He & Hk). right. exists e. split; [exact He | symmetry; exact Hk]. }
  split; [exact Hiff|].
  intros H. apply Hiff in H as (e & _ & ->).
  apply (replace_no_old "/" "_"). reflexivity.
Qed.

(** X17.  A list stored in the dictionary always has at least two
    elements: a list only appears when a second value arrives for a key,
    and it only grows. *)
Theorem stored_lists_have_two_elements
  (entities : list Entity) (key : string) (l : list string) :
  extract_document_entities entities !! key = Some (Many l) → (2 <= length l)%nat.
Proof.
  rewrite extract_visited. apply fold_many.
  intros k l0. rewrite lookup_empty. discriminate.
Qed.

Lemma stored_lists_have_two_elements_witness : (2 <= length ["A"; "B"])%nat.
Proof.
  apply (stored_lists_have_two_elements line_items_A_B "line_item" ["A"; "B"]).
  vm_compute. reflexivity.
Defined.

(** X18.  When every visited entity has a non-empty value (its normalized
    text if it has a normalized value, else its mention text), the
    dictionary holds, for each key, all the values met for that key in the
    order of the visit: the string itself when there is one, the list of
    them when there are several, and nothing for a key that was not met. *)
Theorem entity_values_are_collected (entities : list Entity) (key : string) :
  Forall (λ e, new_entity_value e ≠ EmptyString) (Spec2.visited entities) →
  extract_document_entities entities !! key
  = Spec2.pack (Spec2.values_of key (Spec2.visited entities)).
Proof.
  intros Hall. rewrite extract_visited.
  apply (fold_values (Spec2.visited entities) [] ∅); [exact Hall|].
  intros k. apply lookup_empty.
Qed.

Lemma entity_values_are_collected_witness :
  extract_document_entities line_items_A_B !! "line_item" = Some (Many ["A"; "B"]).
Proof.
  rewrite (entity_values_are_collected line_items_A_B "line_item").
  - reflexivity.
  - repeat constructor; discriminate.
Defined.

(** X19.  The flattening goes one level deep only: the properties of an
    entity are read, the properties of a property are not.  Removing them
    changes nothing in the result. *)
Theorem nested_properties_are_ignored (entities : list Entity) :
  extract_document_entities (map one_level entities)
  = extract_document_entities entities.
Proof.
  unfold extract_document_entities. generalize (∅ : gmap string EntityValue).
  induction entities as [|e entities IH]; intros d; [reflexivity|].
  cbn [map fold_left]. rewrite <- IH. f_equal.
  destruct e as [t mt nv ps]. cbn [one_level properties type_ mention_text normalized_value].
  rewrite loop_properties_without. reflexivity.
Qed.
